(** * Task tracker: the task entity and the task store

    A shallow embedding of [models.py] and [operations.py], and of the
    interactive loop and the status choices of [main.py], with the
    properties of the specification stated over it.

    Python values are dynamically typed: a [Task] read back from
    [tasks.json] holds in each field whatever the JSON document held
    there.  The embedding therefore keeps the fields as JSON values and
    makes every operation that Python can abort with an exception return
    a [result].  JSON floating point numbers are left out of the value
    domain; integers are unbounded.

    A Python [str] is modelled by the bytes that the UTF-8 scheme gives
    its code points, lone surrogates included (U+D800 is ED A0 80): the
    strings that Python can encode in UTF-8 are those whose bytes are
    valid UTF-8, and a [str] with a lone surrogate, as [json.load] makes
    of the escape [\ud800] and the command line of an undecodable byte,
    is a string for which [encodable] is [false].

    Failures of the file system itself (permissions, a full disk) are not
    modelled, nor are the limits of the interpreter inside [json.dump]
    (recursion depth, the bound on the digits of an integer); where
    [json.load] meets those limits on a file, the file is a [content] of
    its own. *)

From Stdlib Require Import ZArith String Ascii List Bool Lia Permutation.
From stdpp Require Import base tactics option list strings.

Local Open Scope Z_scope.
Local Open Scope string_scope.
Local Open Scope list_scope.

(** ** Python values and exceptions *)

(** What [json.load] can produce: [None], [bool], [int], [str], [list]
    and [dict] (a [dict] keeps its insertion order, and its keys are
    distinct). *)
#[warnings="-register-all"] Inductive value : Type :=
| VNone
| VBool (b : bool)
| VInt (n : Z)
| VStr (s : string)
| VList (l : list value)
| VDict (d : list (string * value)).

Inductive exn : Type :=
| TypeError
| ValueError
| AttributeError
| UnicodeDecodeError
| JSONDecodeError
| UnicodeEncodeError
| RecursionError.

Inductive result (A : Type) : Type :=
| Ok (a : A)
| Raise (e : exn).
Arguments Ok {A} a.
Arguments Raise {A} e.

Definition rbind {A B} (r : result A) (k : A -> result B) : result B :=
  match r with
  | Ok a => k a
  | Raise e => Raise e
  end.

Fixpoint rmap {A B} (f : A -> result B) (l : list A) : result (list B) :=
  match l with
  | [] => Ok []
  | x :: l' =>
      rbind (f x) (fun y => rbind (rmap f l') (fun ys => Ok (y :: ys)))
  end.

(** [d.get(k)] on an insertion-ordered dict. *)
Fixpoint dict_get (k : string) (d : list (string * value)) : option value :=
  match d with
  | [] => None
  | (k', v) :: d' => if String.eqb k k' then Some v else dict_get k d'
  end.

(** The number a [bool] or an [int] stands for ([bool] is a subclass of
    [int] in Python); nothing else is a number here. *)
Definition as_number (v : value) : option Z :=
  match v with
  | VBool b => Some (if b then 1 else 0)
  | VInt n => Some n
  | _ => None
  end.

(** Python's [==] on these values. *)
Fixpoint py_eq (a b : value) : bool :=
  match a, b with
  | VNone, VNone => true
  | VBool x, VBool y => Bool.eqb x y
  | VBool x, VInt n => Z.eqb (if x then 1 else 0) n
  | VInt n, VBool y => Z.eqb n (if y then 1 else 0)
  | VInt n, VInt m => Z.eqb n m
  | VStr s, VStr t => String.eqb s t
  | VList l, VList m =>
      (fix all2 (l m : list value) : bool :=
         match l, m with
         | [], [] => true
         | x :: l', y :: m' => py_eq x y && all2 l' m'
         | _, _ => false
         end) l m
  | VDict d, VDict e =>
      Nat.eqb (length d) (length e) &&
      (fix each (d : list (string * value)) : bool :=
         match d with
         | [] => true
         | (k, v) :: d' =>
             match dict_get k e with
             | Some w => py_eq v w && each d'
             | None => false
             end
         end) d
  | _, _ => false
  end.

(** Python's [>]: numbers by value, strings by code point (which is the
    byte order of their UTF-8), lists lexicographically; every other
    pair of operands raises [TypeError]. *)
Fixpoint py_gt (a b : value) : result bool :=
  match a, b with
  | VBool _, VBool _ | VBool _, VInt _ | VInt _, VBool _ | VInt _, VInt _ =>
      match as_number a, as_number b with
      | Some x, Some y => Ok (Z.ltb y x)
      | _, _ => Raise TypeError
      end
  | VStr s, VStr t => Ok (String.ltb t s)
  | VList l, VList m =>
      (fix lex (l m : list value) : result bool :=
         match l, m with
         | [], _ => Ok false
         | _ :: _, [] => Ok true
         | x :: l', y :: m' => if py_eq x y then lex l' m' else py_gt x y
         end) l m
  | _, _ => Raise TypeError
  end.

(** [max(xs)] over a generator: the first item, replaced by each later
    item that is [>] the running maximum. *)
Definition py_max (xs : list value) : result value :=
  match xs with
  | [] => Raise ValueError
  | x :: xs' =>
      fold_left
        (fun acc item =>
           rbind acc (fun maxitem =>
           rbind (py_gt item maxitem) (fun gt =>
           Ok (if gt then item else maxitem))))
        xs' (Ok x)
  end.

(** [v + 1]. *)
Definition py_add_one (v : value) : result value :=
  match as_number v with
  | Some n => Ok (VInt (n + 1))
  | None => Raise TypeError
  end.

Definition is_continuation (c : ascii) : bool :=
  Z.eqb (Z.land (Z.of_N (N_of_ascii c)) 192) 128.

(** The UTF-8 encoded characters of a text, one string per code point. *)
Fixpoint utf8_chars (s : string) : list string :=
  match s with
  | EmptyString => []
  | String c rest =>
      match rest with
      | String c' _ =>
          if is_continuation c' then
            match utf8_chars rest with
            | h :: t => String c h :: t
            | [] => [String c EmptyString]
            end
          else String c EmptyString :: utf8_chars rest
      | EmptyString => [String c EmptyString]
      end
  end.

(** [for x in v]: the items of a list, the keys of a dict, the
    characters of a string; the other values are not iterable. *)
Definition py_iter (v : value) : result (list value) :=
  match v with
  | VList l => Ok l
  | VDict d => Ok (map (fun kv => VStr (fst kv)) d)
  | VStr s => Ok (map VStr (utf8_chars s))
  | VNone | VBool _ | VInt _ => Raise TypeError
  end.

(** ** Text that can be written as UTF-8 *)

Definition byte_of (c : ascii) : Z := Z.of_N (N_of_ascii c).

Definition byte_in (lo hi : Z) (c : ascii) : bool :=
  Z.leb lo (byte_of c) && Z.leb (byte_of c) hi.

(** [s.encode("utf-8")] succeeds: the bytes of [s] are well-formed UTF-8
    (no surrogate, no overlong form, nothing above U+10FFFF). *)
Fixpoint encodable (s : string) : bool :=
  match s with
  | EmptyString => true
  | String c1 r1 =>
      if byte_in 0 127 c1 then encodable r1
      else
        match r1 with
        | EmptyString => false
        | String c2 r2 =>
            if byte_in 194 223 c1 then byte_in 128 191 c2 && encodable r2
            else
              match r2 with
              | EmptyString => false
              | String c3 r3 =>
                  if byte_in 224 224 c1 then
                    byte_in 160 191 c2 && byte_in 128 191 c3 && encodable r3
                  else if byte_in 225 236 c1 || byte_in 238 239 c1 then
                    byte_in 128 191 c2 && byte_in 128 191 c3 && encodable r3
                  else if byte_in 237 237 c1 then
                    byte_in 128 159 c2 && byte_in 128 191 c3 && encodable r3
                  else
                    match r3 with
                    | EmptyString => false
                    | String c4 r4 =>
                        if byte_in 240 240 c1 then
                          byte_in 144 191 c2 && byte_in 128 191 c3 &&
                          byte_in 128 191 c4 && encodable r4
                        else if byte_in 241 243 c1 then
                          byte_in 128 191 c2 && byte_in 128 191 c3 &&
                          byte_in 128 191 c4 && encodable r4
                        else if byte_in 244 244 c1 then
                          byte_in 128 143 c2 && byte_in 128 191 c3 &&
                          byte_in 128 191 c4 && encodable r4
                        else false
                    end
              end
        end
  end.

(** Every string of a value, the keys of its objects included, can be
    written: the condition under which [json.dump] with
    [ensure_ascii=False] into a UTF-8 text file does not raise
    [UnicodeEncodeError]. *)
Fixpoint encodable_value (v : value) : bool :=
  match v with
  | VNone | VBool _ | VInt _ => true
  | VStr s => encodable s
  | VList l =>
      (fix all (l : list value) : bool :=
         match l with
         | [] => true
         | x :: l' => encodable_value x && all l'
         end) l
  | VDict d =>
      (fix all (d : list (string * value)) : bool :=
         match d with
         | [] => true
         | (k, x) :: d' => encodable k && encodable_value x && all d'
         end) d
  end.

(** ** models.py *)

Module Task.

Record t : Type := mk {
  id : value;
  title : value;
  description : value;
  status : value
}.

(** [Task.__init__(task_id, title, description, status="todo")] *)
Definition init (task_id title description : value)
    (status : option value) : t :=
  mk task_id title description (default (VStr "todo") status).

Definition to_dict (self : t) : value :=
  VDict [ ("id", id self);
          ("title", title self);
          ("description", description self);
          ("status", status self) ].

(** [task_dict.get(k)] and [task_dict.get(k, dflt)]; only a dict has
    a [get] method. *)
Definition get (task_dict : value) (k : string) (dflt : value)
    : result value :=
  match task_dict with
  | VDict d => Ok (default dflt (dict_get k d))
  | _ => Raise AttributeError
  end.

Definition from_dict (task_dict : value) : result t :=
  rbind (get task_dict "id" VNone) (fun i =>
  rbind (get task_dict "title" VNone) (fun ti =>
  rbind (get task_dict "description" VNone) (fun de =>
  rbind (get task_dict "status" (VStr "todo")) (fun st =>
  Ok (init i ti de (Some st)))))).

Definition set_title (v : value) (self : t) : t :=
  mk (id self) v (description self) (status self).
Definition set_description (v : value) (self : t) : t :=
  mk (id self) (title self) v (status self).
Definition set_status (v : value) (self : t) : t :=
  mk (id self) (title self) (description self) v.

End Task.

(** ** The persisted resource *)

(** [tasks.json] as the text layer and the decoder of the [json] module
    see it:
    - [NotUtf8]: bytes that are not UTF-8;
    - [NotJson]: text that [json.load] rejects with [JSONDecodeError];
    - [Json doc]: the text of the document [doc], which [json.load]
      gives back;
    - [Truncated doc]: what a [json.dump] of [doc] that raised has left,
      the file having been opened for writing before: the beginning of
      the text of [doc], up to the first string that cannot be encoded.
      It lacks at least the closing bracket of [doc], so [json.load]
      rejects it with [JSONDecodeError];
    - [TooDeep]: text nested deeper than the decoder follows
      ([RecursionError]);
    - [TooManyDigits]: text with an integer of more digits than the
      interpreter converts ([ValueError]). *)
Inductive content : Type :=
| NotUtf8
| NotJson
| Json (doc : value)
| Truncated (doc : value)
| TooDeep
| TooManyDigits.

(** [None]: the file does not exist. *)
Definition store : Type := option content.

Definition json_load (c : content) : result value :=
  match c with
  | NotUtf8 => Raise UnicodeDecodeError
  | NotJson => Raise JSONDecodeError
  | Json doc => Ok doc
  | Truncated _ => Raise JSONDecodeError
  | TooDeep => Raise RecursionError
  | TooManyDigits => Raise ValueError
  end.

(** [json.dump(doc, file, indent=4, ensure_ascii=False)] on the file just
    opened with ["w"], which has emptied it: the whole text of [doc] is
    written, or [UnicodeEncodeError] is raised at the first string that
    cannot be encoded and the file keeps what was written before it. *)
Definition json_dump (doc : value) : result unit * content :=
  if encodable_value doc then (Ok tt, Json doc)
  else (Raise UnicodeEncodeError, Truncated doc).

(** ** A state and exception monad for the store operations *)

Definition M (A : Type) : Type := store -> result A * store.

Definition ret {A} (a : A) : M A := fun st => (Ok a, st).

Definition bind {A B} (m : M A) (k : A -> M B) : M B :=
  fun st =>
    match m st with
    | (Ok a, st') => k a st'
    | (Raise e, st') => (Raise e, st')
    end.

Definition lift {A} (r : result A) : M A := fun st => (r, st).

Notation "x <- m ;; k" := (bind m (fun x => k))
  (at level 100, m at next level, right associativity).
Notation "m ;;; k" := (bind m (fun _ => k))
  (at level 100, right associativity).

(** The outcome and the final store of running [m]. *)
Definition outcome {A} (m : M A) (st : store) : result A := fst (m st).
Definition after {A} (m : M A) (st : store) : store := snd (m st).

(** ** operations.py *)

Definition load_tasks : M (list Task.t) :=
  fun st =>
    match st with
    | None => (Ok [], st)
    | Some file =>
        let body :=
          rbind (json_load file) (fun tasks_data =>
          rbind (py_iter tasks_data) (fun items =>
          rmap Task.from_dict items)) in
        match body with
        | Raise JSONDecodeError => (Ok [], st)
        | r => (r, st)
        end
    end.

Definition save_tasks (tasks : list Task.t) : M unit :=
  fun _ =>
    let tasks_data := map Task.to_dict tasks in
    let '(r, file) := json_dump (VList tasks_data) in
    (r, Some file).

Definition get_new_task_id (tasks : list Task.t) : result value :=
  match tasks with
  | [] => Ok (VInt 1)
  | _ :: _ =>
      rbind (py_max (map Task.id tasks)) (fun max_id =>
      py_add_one max_id)
  end.

Definition add_task (title description : string) : M Task.t :=
  tasks <- load_tasks ;;
  new_id <- lift (get_new_task_id tasks) ;;
  let new_task :=
    Task.init new_id (VStr title) (VStr description) (Some (VStr "todo")) in
  let tasks := tasks ++ [new_task] in
  save_tasks tasks ;;;
  ret new_task.

(** The [for task in tasks: if task.id == task_id: ...; break] loop of
    [update_task] and [mark_task]: [change] is applied to the first task
    whose id equals [task_id]; the flag tells whether there was one. *)
Fixpoint change_first (change : Task.t -> Task.t) (task_id : Z)
    (tasks : list Task.t) : list Task.t * bool :=
  match tasks with
  | [] => ([], false)
  | task :: rest =>
      if py_eq (Task.id task) (VInt task_id) then (change task :: rest, true)
      else
        let '(rest', updated) := change_first change task_id rest in
        (task :: rest', updated)
  end.

Definition update_task (task_id : Z) (title description : string) : M bool :=
  tasks <- load_tasks ;;
  let '(tasks, updated) :=
    change_first
      (fun task =>
         Task.set_description (VStr description)
           (Task.set_title (VStr title) task))
      task_id tasks in
  if updated then save_tasks tasks ;;; ret true
  else ret false.

Definition delete_task (task_id : Z) : M bool :=
  tasks <- load_tasks ;;
  let updated_tasks :=
    List.filter (fun task => negb (py_eq (Task.id task) (VInt task_id)))
      tasks in
  if Nat.eqb (length updated_tasks) (length tasks) then ret false
  else save_tasks updated_tasks ;;; ret true.

Definition mark_task (task_id : Z) (new_status : string) : M bool :=
  tasks <- load_tasks ;;
  let '(tasks, updated) :=
    change_first (Task.set_status (VStr new_status)) task_id tasks in
  if updated then save_tasks tasks ;;; ret true
  else ret false.

Definition list_tasks (filter_by : string) : M (list Task.t) :=
  tasks <- load_tasks ;;
  if String.eqb filter_by "all" then ret tasks
  else if String.eqb filter_by "done" then
    ret (List.filter (fun task => py_eq (Task.status task) (VStr "done"))
           tasks)
  else if String.eqb filter_by "not_done" then
    ret (List.filter
           (fun task => negb (py_eq (Task.status task) (VStr "done")))
           tasks)
  else if String.eqb filter_by "in_progress" then
    ret (List.filter
           (fun task => py_eq (Task.status task) (VStr "in_progress"))
           tasks)
  else ret tasks.

(** ** main.py: where a status is chosen *)



(** The status menu of the interactive mode, on the stripped input. *)
Definition interactive_status (status_choice : string) : option string :=
  if String.eqb status_choice "1" then Some "todo"
  else if String.eqb status_choice "2" then Some "in_progress"
  else if String.eqb status_choice "3" then Some "done"
  else None.

(** The filter menu of the interactive mode, on the stripped input. *)
Definition interactive_filter (filter_choice : string) : option string :=
  if String.eqb filter_choice "1" then Some "all"
  else if String.eqb filter_choice "2" then Some "done"
  else if String.eqb filter_choice "3" then Some "not_done"
  else if String.eqb filter_choice "4" then Some "in_progress"
  else None.

(** ** Vocabulary of the properties *)

(** The file a save leaves behind. *)
Definition saved (tasks : list Task.t) : store :=
  Some (Json (VList (map Task.to_dict tasks))).

(** The file a save that raised leaves behind. *)
Definition truncated (tasks : list Task.t) : store :=
  Some (Truncated (VList (map Task.to_dict tasks))).

(** The collection can be saved: all its strings can be encoded. *)
Definition dumpable (tasks : list Task.t) : bool :=
  encodable_value (VList (map Task.to_dict tasks)).

(** What a call that ends by saving [tasks] and returning [a] gives. *)
Definition saving {A} (tasks : list Task.t) (a : A) : result A * store :=
  if dumpable tasks then (Ok a, saved tasks)
  else (Raise UnicodeEncodeError, truncated tasks).

(** The [str] ['\udcff'], which holds a lone surrogate: what a byte 0xFF
    of a command line argument becomes, and what [json.load] makes of
    the escape [\udcff]. *)
Definition lone_surrogate : string :=
  String "237"%char (String "179"%char (String "191"%char EmptyString)).

(** The four fields of a task can be encoded. *)
Definition encodable_task (t : Task.t) : bool :=
  encodable_value (Task.id t) && encodable_value (Task.title t) &&
  encodable_value (Task.description t) && encodable_value (Task.status t).

(** [task.id == task_id] for the integer [task_id] of a caller. *)
Definition has_id (task_id : Z) (task : Task.t) : bool :=
  py_eq (Task.id task) (VInt task_id).

(** The changes [update_task] and [mark_task] make to the task found. *)
Definition retitled (title description : string) (task : Task.t) : Task.t :=
  Task.mk (Task.id task) (VStr title) (VStr description) (Task.status task).
Definition restatused (new_status : string) (task : Task.t) : Task.t :=
  Task.mk (Task.id task) (Task.title task) (Task.description task)
    (VStr new_status).

(** The largest of [z :: zs], as the loop of [max] finds it. *)
Definition max_of (z : Z) (zs : list Z) : Z := fold_left Z.max zs z.

(** The identifier [get_new_task_id] gives for integer ids [zs]. *)
Definition next_id (zs : list Z) : Z :=
  match zs with
  | [] => 1
  | z :: zs' => max_of z zs' + 1
  end.

(** One call of a caller on the store. *)
Inductive op : Type :=
| Add (title description : string)
| Update (task_id : Z) (title description : string)
| Delete (task_id : Z)
| SetStatus (task_id : Z) (new_status : string).

(** The store an operation leaves. *)
Definition step (o : op) (st : store) : store :=
  match o with
  | Add title description => after (add_task title description) st
  | Update task_id title description =>
      after (update_task task_id title description) st
  | Delete task_id => after (delete_task task_id) st
  | SetStatus task_id new_status => after (mark_task task_id new_status) st
  end.

Definition run (ops : list op) (st : store) : store :=
  fold_left (fun st o => step o st) ops st.

(** A sequence of [add_task] calls, with the tasks they return. *)
Fixpoint add_all (args : list (string * string)) : M (list Task.t) :=
  match args with
  | [] => ret []
  | (title, description) :: args' =>
      task <- add_task title description ;;
      tasks <- add_all args' ;;
      ret (task :: tasks)
  end.

(** The collection of the store loads, with integer ids [zs]. *)
Definition holds_ids (st : store) (zs : list Z) : Prop :=
  exists tasks, outcome load_tasks st = Ok tasks /\
                map Task.id tasks = map VInt zs.

Definition distinct_ids (st : store) : Prop :=
  exists zs, holds_ids st zs /\ NoDup zs.

(** [v] is an [int] or a [bool]. *)
Definition is_number (v : value) : bool :=
  match as_number v with
  | Some _ => true
  | None => false
  end.



(** How a session of the interactive mode ends: by the choice 6, by
    [input] finding no more input ([EOFError]), or by an exception of an
    operation. *)
Inductive ending : Type :=
| Exit
| EndOfInput
| Failed (e : exn).

Section InteractiveMode.

(** The two built-in functions the loop applies to what it reads:
    [text.strip()], and [int(text)] with [None] for its [ValueError]. *)
Variable strip : string -> string.
Variable py_int : string -> option Z.

(** The loop of [interactive_mode] on the lines [input] will return, one
    per call; what it prints is left out.  It gives the way the session
    ends and the store it leaves. *)
Fixpoint interactive_mode (inputs : list string) (st : store)
    : ending * store :=
  match inputs with
  | [] => (EndOfInput, st)
  | line :: inputs1 =>
      let choice := strip line in
      if String.eqb choice "6" then (Exit, st)
      else if String.eqb choice "1" then
        match inputs1 with
        | line1 :: line2 :: inputs' =>
            match add_task (strip line1) (strip line2) st with
            | (Ok _, st') => interactive_mode inputs' st'
            | (Raise e, st') => (Failed e, st')
            end
        | _ => (EndOfInput, st)
        end
      else if String.eqb choice "2" then
        match inputs1 with
        | line1 :: inputs2 =>
            match py_int line1 with
            | None => interactive_mode inputs2 st
            | Some task_id =>
                match inputs2 with
                | line2 :: line3 :: inputs' =>
                    match update_task task_id (strip line2) (strip line3) st
                    with
                    | (Ok _, st') => interactive_mode inputs' st'
                    | (Raise e, st') => (Failed e, st')
                    end
                | _ => (EndOfInput, st)
                end
            end
        | [] => (EndOfInput, st)
        end
      else if String.eqb choice "3" then
        match inputs1 with
        | line1 :: inputs' =>
            match py_int line1 with
            | None => interactive_mode inputs' st
            | Some task_id =>
                match delete_task task_id st with
                | (Ok _, st') => interactive_mode inputs' st'
                | (Raise e, st') => (Failed e, st')
                end
            end
        | [] => (EndOfInput, st)
        end
      else if String.eqb choice "4" then
        match inputs1 with
        | line1 :: inputs2 =>
            match py_int line1 with
            | None => interactive_mode inputs2 st
            | Some task_id =>
                match inputs2 with
                | line2 :: inputs' =>
                    match interactive_status (strip line2) with
                    | None => interactive_mode inputs' st
                    | Some new_status =>
                        match mark_task task_id new_status st with
                        | (Ok _, st') => interactive_mode inputs' st'
                        | (Raise e, st') => (Failed e, st')
                        end
                    end
                | [] => (EndOfInput, st)
                end
            end
        | [] => (EndOfInput, st)
        end
      else if String.eqb choice "5" then
        match inputs1 with
        | line1 :: inputs' =>
            match interactive_filter (strip line1) with
            | None => interactive_mode inputs' st
            | Some filter_by =>
                match list_tasks filter_by st with
                | (Ok _, st') => interactive_mode inputs' st'
                | (Raise e, st') => (Failed e, st')
                end
            end
        | [] => (EndOfInput, st)
        end
      else interactive_mode inputs1 st
  end.

End InteractiveMode.

(** The status of a status change is one of the three of the menu. *)
Definition known_status (o : op) : Prop :=
  match o with
  | SetStatus _ new_status => In new_status ["todo"; "in_progress"; "done"]
  | _ => True
  end.

(** [v] is [None], a string, a list or an object. *)
Definition no_number (v : value) : bool :=
  match v with
  | VNone | VStr _ | VList _ | VDict _ => true
  | VBool _ | VInt _ => false
  end.

(** The collection the store loads has the integer ids [zs], and its
    strings can be encoded. *)
Definition holds_dumpable (st : store) (zs : list Z) : Prop :=
  exists tasks, outcome load_tasks st = Ok tasks /\
                map Task.id tasks = map VInt zs /\
                dumpable tasks = true.

(** The title and the description of an [add_task] call can be
    encoded. *)
Definition encodable_args (a : string * string) : bool :=
  encodable (fst a) && encodable (snd a).

(** The strings an operation is given can be encoded. *)
Definition encodable_op (o : op) : bool :=
  match o with
  | Add title description => encodable title && encodable description
  | Update _ title description => encodable title && encodable description
  | Delete _ => true
  | SetStatus _ new_status => encodable new_status
  end.

(** A sequence of [add_task] calls, each on the store the one before has
    left, whether that one returned or raised: what each call gives. *)
Fixpoint add_each (args : list (string * string)) (st : store)
    : list (result Task.t) :=
  match args with
  | [] => []
  | (title, description) :: args' =>
      let '(r, st') := add_task title description st in
      r :: add_each args' st'
  end.

(** The tasks of the calls that returned. *)
Fixpoint returned (rs : list (result Task.t)) : list Task.t :=
  match rs with
  | [] => []
  | Ok task :: rs' => task :: returned rs'
  | Raise _ :: rs' => returned rs'
  end.

(** The call [o] returns on the store [st], rather than raising. *)
Definition returns (o : op) (st : store) : Prop :=
  match o with
  | Add title description =>
      exists task, outcome (add_task title description) st = Ok task
  | Update task_id title description =>
      exists b, outcome (update_task task_id title description) st = Ok b
  | Delete task_id => exists b, outcome (delete_task task_id) st = Ok b
  | SetStatus task_id new_status =>
      exists b, outcome (mark_task task_id new_status) st = Ok b
  end.

(** The body of the loop of [max] in [py_max]. *)
Definition max_step (acc : result value) (item : value) : result value :=
  rbind acc (fun maxitem =>
  rbind (py_gt item maxitem) (fun gt =>
  Ok (if gt then item else maxitem))).

(** * Properties *)

(** ** The entity *)

Lemma from_dict_to_dict (task : Task.t) :
  Task.from_dict (Task.to_dict task) = Ok task.
Proof. destruct task; reflexivity. Qed.

Lemma from_dict_dict (d : list (string * value)) :
  Task.from_dict (VDict d) =
  Ok (Task.mk (default VNone (dict_get "id" d))
        (default VNone (dict_get "title" d))
        (default VNone (dict_get "description" d))
        (default (VStr "todo") (dict_get "status" d))).
Proof. reflexivity. Qed.

Lemma rmap_from_dict_to_dict (tasks : list Task.t) :
  rmap Task.from_dict (map Task.to_dict tasks) = Ok tasks.
Proof.
  induction tasks as [|task tasks IH]; simpl; [reflexivity|].
  rewrite IH. now destruct task.
Qed.

(** ** Loading and saving *)

Lemma load_tasks_keeps_store (st : store) : after load_tasks st = st.
Proof.
  unfold after, load_tasks. destruct st as [file|]; [|reflexivity].
  destruct (rbind _ _) as [?|[]]; reflexivity.
Qed.

Lemma load_tasks_run (st : store) :
  load_tasks st = (outcome load_tasks st, st).
Proof.
  rewrite <- (load_tasks_keeps_store st) at 3.
  unfold outcome, after. now destruct (load_tasks st).
Qed.

Lemma load_tasks_absent : outcome load_tasks None = Ok [].
Proof. reflexivity. Qed.

Lemma load_tasks_not_json : outcome load_tasks (Some NotJson) = Ok [].
Proof. reflexivity. Qed.

Lemma load_tasks_records (records : list value) :
  outcome load_tasks (Some (Json (VList records))) =
  rmap Task.from_dict records.
Proof.
  unfold outcome, load_tasks; simpl.
  assert (H : forall r, rmap Task.from_dict records = r ->
            r <> Raise JSONDecodeError).
  { intros r <-. clear. induction records as [|x l IH]; simpl; [easy|].
    destruct x; simpl; try easy.
    destruct (rmap Task.from_dict l) as [?|e]; simpl; [easy|].
    intros [= ->]. now apply IH. }
  specialize (H _ eq_refl).
  destruct (rmap Task.from_dict records) as [?|[]]; try reflexivity.
  now contradiction H.
Qed.

Lemma load_tasks_saved (tasks : list Task.t) :
  outcome load_tasks (saved tasks) = Ok tasks.
Proof.
  unfold saved. rewrite load_tasks_records. apply rmap_from_dict_to_dict.
Qed.

(** ** Running one operation on a store whose collection is known *)

Lemma op_raises {A} (k : list Task.t -> M A) (st : store) (e : exn) :
  outcome load_tasks st = Raise e ->
  (tasks <- load_tasks ;; k tasks) st = (Raise e, st).
Proof. intros H. unfold bind. now rewrite load_tasks_run, H. Qed.

Lemma op_loaded {A} (k : list Task.t -> M A) (st : store) tasks :
  outcome load_tasks st = Ok tasks ->
  (tasks <- load_tasks ;; k tasks) st = k tasks st.
Proof. intros H. unfold bind. now rewrite load_tasks_run, H. Qed.

Lemma load_tasks_truncated (tasks : list Task.t) :
  outcome load_tasks (truncated tasks) = Ok [].
Proof. reflexivity. Qed.

Lemma save_then (A : Type) (tasks : list Task.t) (a : A) (st : store) :
  (save_tasks tasks ;;; ret a) st = saving tasks a.
Proof.
  unfold bind, save_tasks, json_dump, saving, dumpable, ret.
  now destruct (encodable_value _).
Qed.

Lemma saving_saved {A} (tasks : list Task.t) (a : A) :
  dumpable tasks = true -> saving tasks a = (Ok a, saved tasks).
Proof. unfold saving. now intros ->. Qed.

Lemma saving_failed {A} (tasks : list Task.t) (a : A) :
  dumpable tasks = false ->
  saving tasks a = (Raise UnicodeEncodeError, truncated tasks).
Proof. unfold saving. now intros ->. Qed.

Lemma saving_returned {A} (tasks : list Task.t) (a b : A) :
  fst (saving tasks a) = Ok b ->
  b = a /\ dumpable tasks = true /\ snd (saving tasks a) = saved tasks.
Proof.
  unfold saving. destruct (dumpable tasks); simpl; [|discriminate].
  now intros [= <-].
Qed.

Lemma load_after_saving {A} (tasks : list Task.t) (a : A) :
  outcome load_tasks (snd (saving tasks a)) =
  Ok (if dumpable tasks then tasks else []).
Proof.
  unfold saving. destruct (dumpable tasks); simpl;
    [apply load_tasks_saved|reflexivity].
Qed.

Lemma add_task_run st tasks new_id title description :
  outcome load_tasks st = Ok tasks ->
  get_new_task_id tasks = Ok new_id ->
  let task := Task.mk new_id (VStr title) (VStr description) (VStr "todo") in
  add_task title description st = saving (tasks ++ [task]) task.
Proof.
  intros Hload Hid. unfold add_task. rewrite (op_loaded _ _ _ Hload).
  unfold bind at 1, lift. rewrite Hid. apply save_then.
Qed.

Lemma update_task_run st tasks task_id title description :
  outcome load_tasks st = Ok tasks ->
  update_task task_id title description st =
  let '(tasks', updated) :=
    change_first (retitled title description) task_id tasks in
  if updated then saving tasks' true else (Ok false, st).
Proof.
  intros Hload. unfold update_task. rewrite (op_loaded _ _ _ Hload).
  change (fun task => Task.set_description _ (Task.set_title _ task))
    with (retitled title description).
  destruct (change_first _ _ _) as [tasks' []]; [apply save_then|easy].
Qed.

Lemma mark_task_run st tasks task_id new_status :
  outcome load_tasks st = Ok tasks ->
  mark_task task_id new_status st =
  let '(tasks', updated) :=
    change_first (restatused new_status) task_id tasks in
  if updated then saving tasks' true else (Ok false, st).
Proof.
  intros Hload. unfold mark_task. rewrite (op_loaded _ _ _ Hload).
  change (Task.set_status (VStr new_status)) with (restatused new_status).
  destruct (change_first _ _ _) as [tasks' []]; [apply save_then|easy].
Qed.

Lemma delete_task_run st tasks task_id :
  outcome load_tasks st = Ok tasks ->
  delete_task task_id st =
  let updated_tasks := List.filter (fun t => negb (has_id task_id t)) tasks in
  if Nat.eqb (length updated_tasks) (length tasks) then (Ok false, st)
  else saving updated_tasks true.
Proof.
  intros Hload. unfold delete_task. rewrite (op_loaded _ _ _ Hload).
  cbv zeta. fold (has_id task_id).
  change (fun task => negb (py_eq (Task.id task) (VInt task_id)))
    with (fun t => negb (has_id task_id t)).
  destruct (Nat.eqb _ _); [easy|apply save_then].
Qed.

(** ** Collections that can be saved *)

Lemma dumpable_forall (tasks : list Task.t) :
  dumpable tasks = forallb encodable_task tasks.
Proof.
  unfold dumpable. induction tasks as [|t tasks IH]; [reflexivity|].
  simpl in *. rewrite IH. unfold encodable_task.
  destruct (encodable_value (Task.id t)),
    (encodable_value (Task.title t)),
    (encodable_value (Task.description t)),
    (encodable_value (Task.status t)); reflexivity.
Qed.

Lemma dumpable_app (l1 l2 : list Task.t) :
  dumpable (l1 ++ l2) = dumpable l1 && dumpable l2.
Proof. rewrite !dumpable_forall. apply forallb_app. Qed.

Lemma dumpable_filter (p : Task.t -> bool) (tasks : list Task.t) :
  dumpable tasks = true -> dumpable (List.filter p tasks) = true.
Proof.
  rewrite !dumpable_forall, !forallb_forall.
  intros H t [Ht _]%filter_In. now apply H.
Qed.

Lemma dumpable_change_first (c : Task.t -> Task.t) (i : Z) tasks :
  (forall t, encodable_task t = true -> encodable_task (c t) = true) ->
  dumpable tasks = true ->
  dumpable (fst (change_first c i tasks)) = true.
Proof.
  intros Hc. rewrite !dumpable_forall.
  induction tasks as [|t tasks IH]; simpl; [easy|].
  intros [Ht H]%andb_true_iff.
  destruct (py_eq _ _); simpl.
  - now rewrite (Hc t Ht), H.
  - destruct (change_first c i tasks) as [l u]; simpl in *.
    now rewrite Ht, IH.
Qed.

Lemma dumpable_replace before (t t' : Task.t) rest :
  dumpable (before ++ t :: rest) = true ->
  encodable_task t' = true ->
  dumpable (before ++ t' :: rest) = true.
Proof.
  rewrite !dumpable_forall, !forallb_app. simpl.
  intros [-> [_ ->]%andb_true_iff]%andb_true_iff ->. reflexivity.
Qed.

Lemma dumpable_member (tasks : list Task.t) (t : Task.t) :
  dumpable tasks = true -> In t tasks -> encodable_task t = true.
Proof. rewrite dumpable_forall, forallb_forall. auto. Qed.

Lemma encodable_retitled title description t :
  encodable title = true -> encodable description = true ->
  encodable_task t = true ->
  encodable_task (retitled title description t) = true.
Proof.
  unfold encodable_task. simpl. intros -> ->.
  intros [[[-> _]%andb_true_iff _]%andb_true_iff ->]%andb_true_iff.
  reflexivity.
Qed.

Lemma encodable_restatused new_status t :
  encodable new_status = true ->
  encodable_task t = true ->
  encodable_task (restatused new_status t) = true.
Proof.
  unfold encodable_task. simpl. intros ->.
  intros [[[-> ->]%andb_true_iff ->]%andb_true_iff _]%andb_true_iff.
  reflexivity.
Qed.


Lemma encodable_new_task (n : Z) title description :
  encodable_task (Task.mk (VInt n) (VStr title) (VStr description)
                    (VStr "todo")) =
  encodable title && encodable description.
Proof. unfold encodable_task. simpl. now rewrite andb_true_r. Qed.

(** ** The search loop *)

Section ChangeFirst.

Variable change : Task.t -> Task.t.
Variable task_id : Z.

Lemma change_first_found before task rest :
  forallb (fun t => negb (has_id task_id t)) before = true ->
  has_id task_id task = true ->
  change_first change task_id (before ++ task :: rest) =
  (before ++ change task :: rest, true).
Proof.
  intros Hbefore Htask.
  induction before as [|t before IH]; simpl in *.
  - unfold has_id in Htask. now rewrite Htask.
  - apply andb_true_iff in Hbefore as [Ht Hbefore].
    unfold has_id in Ht. apply negb_true_iff in Ht. rewrite Ht.
    now rewrite (IH Hbefore).
Qed.

Lemma change_first_missing tasks :
  existsb (has_id task_id) tasks = false ->
  change_first change task_id tasks = (tasks, false).
Proof.
  induction tasks as [|t tasks IH]; simpl; [reflexivity|].
  intros [Ht Hrest]%orb_false_iff. unfold has_id in Ht. rewrite Ht.
  now rewrite (IH Hrest).
Qed.

Lemma first_match tasks :
  existsb (has_id task_id) tasks = true ->
  exists before task rest,
    tasks = before ++ task :: rest /\
    forallb (fun t => negb (has_id task_id t)) before = true /\
    has_id task_id task = true.
Proof.
  induction tasks as [|t tasks IH]; simpl; [discriminate|].
  destruct (has_id task_id t) eqn:Ht; simpl.
  - intros _. now exists [], t, tasks.
  - intros (before & task & rest & -> & Hb & Htask)%IH.
    exists (t :: before), task, rest. simpl. now rewrite Ht.
Qed.

Lemma change_first_flag tasks :
  snd (change_first change task_id tasks) = existsb (has_id task_id) tasks.
Proof.
  destruct (existsb (has_id task_id) tasks) eqn:E.
  - destruct (first_match _ E) as (b & t & r & -> & Hb & Ht).
    now rewrite change_first_found.
  - now rewrite change_first_missing.
Qed.

Hypothesis change_id : forall task, Task.id (change task) = Task.id task.

Lemma change_first_ids tasks :
  map Task.id (fst (change_first change task_id tasks)) = map Task.id tasks.
Proof.
  induction tasks as [|t tasks IH]; simpl; [reflexivity|].
  destruct (py_eq _ _); simpl; [now rewrite change_id|].
  destruct (change_first _ _ _); simpl in *. now rewrite IH.
Qed.

Hypothesis change_twice : forall task, change (change task) = change task.

Lemma change_first_again tasks :
  let '(tasks', updated) := change_first change task_id tasks in
  change_first change task_id tasks' = (tasks', updated).
Proof.
  destruct (existsb (has_id task_id) tasks) eqn:E.
  - destruct (first_match _ E) as (b & t & r & -> & Hb & Ht).
    rewrite change_first_found by assumption.
    rewrite change_first_found; [now rewrite change_twice|assumption|].
    unfold has_id in *. now rewrite change_id.
  - rewrite change_first_missing by assumption.
    now apply change_first_missing.
Qed.

End ChangeFirst.

(** ** The next identifier *)

Lemma max_of_bounds (z : Z) (zs : list Z) :
  In (max_of z zs) (z :: zs) /\ forall x, In x (z :: zs) -> x <= max_of z zs.
Proof.
  unfold max_of. revert z. induction zs as [|y zs IH]; intros z; simpl.
  - split; [now left|]. intros x [<-|[]]. lia.
  - destruct (IH (Z.max z y)) as [Hin Hle]. split.
    + destruct Hin as [Hin|Hin]; [|now right; right].
      rewrite <- Hin. destruct (Z.max_spec z y) as [[_ ->]|[_ ->]]; auto.
    + intros x [<-|[<-|Hx]].
      * etransitivity; [|apply Hle; now left]. lia.
      * etransitivity; [|apply Hle; now left]. lia.
      * apply Hle. now right.
Qed.

Lemma py_max_ints (z : Z) (zs : list Z) :
  py_max (map VInt (z :: zs)) = Ok (VInt (max_of z zs)).
Proof.
  unfold py_max, max_of. simpl. revert z.
  induction zs as [|y zs IH]; intros z; simpl; [reflexivity|].
  rewrite <- IH. f_equal.
  destruct (Z.ltb_spec z y).
  - now rewrite Z.max_r by lia.
  - now rewrite Z.max_l by lia.
Qed.

Lemma get_new_task_id_ints (tasks : list Task.t) (z : Z) (zs : list Z) :
  map Task.id tasks = map VInt (z :: zs) ->
  get_new_task_id tasks = Ok (VInt (max_of z zs + 1)).
Proof.
  intros H. destruct tasks as [|t ts]; [discriminate|].
  unfold get_new_task_id. now rewrite H, py_max_ints.
Qed.

Lemma get_new_task_id_next_id (tasks : list Task.t) (zs : list Z) :
  map Task.id tasks = map VInt zs ->
  get_new_task_id tasks = Ok (VInt (next_id zs)).
Proof.
  destruct zs as [|z zs]; [|apply get_new_task_id_ints].
  now destruct tasks.
Qed.

Lemma next_id_fresh (zs : list Z) : forall z, In z zs -> z < next_id zs.
Proof.
  destruct zs as [|z0 zs]; [easy|]. intros z Hz. simpl.
  pose proof (proj2 (max_of_bounds z0 zs) z Hz). lia.
Qed.

(** C5: [get_new_task_id] gives 1 for the empty collection and one more
    than the largest id for a non-empty collection of tasks with integer
    ids; its result is a function of the ids of the collection alone, and
    for the ids 5 and 2 it is 6. *)
Theorem get_new_task_id_is_one_plus_max
    (tasks : list Task.t) (zs : list Z)
    (Hids : map Task.id tasks = map VInt zs) :
  match zs with
  | [] => tasks = [] /\ get_new_task_id tasks = Ok (VInt 1)
  | _ :: _ =>
      exists m, In m zs /\ (forall z, In z zs -> z <= m) /\
                get_new_task_id tasks = Ok (VInt (1 + m))
  end /\
  (forall tasks', map Task.id tasks' = map Task.id tasks ->
     get_new_task_id tasks' = get_new_task_id tasks) /\
  (forall ti1 de1 st1 ti2 de2 st2,
     get_new_task_id [Task.mk (VInt 5) ti1 de1 st1;
                      Task.mk (VInt 2) ti2 de2 st2] = Ok (VInt 6)).
Proof.
  split; [|split].
  - destruct zs as [|z zs'].
    + destruct tasks; [now split|discriminate].
    + destruct (max_of_bounds z zs') as [Hin Hle].
      exists (max_of z zs'). repeat split; try assumption.
      rewrite (get_new_task_id_ints _ _ _ Hids). do 2 f_equal. lia.
  - intros tasks' H. rewrite (get_new_task_id_next_id _ _ Hids).
    rewrite Hids in H. now rewrite (get_new_task_id_next_id _ _ H).
  - reflexivity.
Qed.

Lemma get_new_task_id_is_one_plus_max_witness :
  exists m, In m [3; 1] /\ (forall z, In z [3; 1] -> z <= m) /\
    get_new_task_id
      [Task.mk (VInt 3) (VStr "a") (VStr "") (VStr "todo");
       Task.mk (VInt 1) (VStr "b") (VStr "") (VStr "done")]
    = Ok (VInt (1 + m)).
Proof.
  exact (proj1 (get_new_task_id_is_one_plus_max
                  [Task.mk (VInt 3) (VStr "a") (VStr "") (VStr "todo");
                   Task.mk (VInt 1) (VStr "b") (VStr "") (VStr "done")]
                  [3; 1] eq_refl)).
Defined.

(** ** The entity's serialization *)

(** C9: [from_dict (to_dict task)] is [task], also through a save and
    a load when the strings of the task can be encoded; [to_dict] builds
    a record with exactly the four fields [id],
    [title], [description] and [status]; [from_dict] accepts every
    record, gives status ["todo"] when the record has no [status], and
    [None] in [id], [title] or [description] when the record lacks that
    field. *)
Theorem task_serialization_round_trip
    (task : Task.t) (record : list (string * value)) :
  Task.from_dict (Task.to_dict task) = Ok task /\
  (forall st, dumpable [task] = true ->
     outcome load_tasks (after (save_tasks [task]) st) = Ok [task]) /\
  Task.to_dict task =
    VDict [("id", Task.id task); ("title", Task.title task);
           ("description", Task.description task);
           ("status", Task.status task)] /\
  exists t, Task.from_dict (VDict record) = Ok t /\
    (dict_get "status" record = None -> Task.status t = VStr "todo") /\
    (dict_get "id" record = None -> Task.id t = VNone) /\
    (dict_get "title" record = None -> Task.title t = VNone) /\
    (dict_get "description" record = None -> Task.description t = VNone) /\
    (forall v, dict_get "id" record = Some v -> Task.id t = v) /\
    (forall v, dict_get "title" record = Some v -> Task.title t = v) /\
    (forall v, dict_get "description" record = Some v ->
               Task.description t = v) /\
    (forall v, dict_get "status" record = Some v -> Task.status t = v).
Proof.
  split; [apply from_dict_to_dict|].
  split.
  { intros st Hdump. unfold after, save_tasks, json_dump.
    unfold dumpable in Hdump. rewrite Hdump.
    apply (load_tasks_saved [task]). }
  split; [reflexivity|].
  eexists. split; [apply from_dict_dict|]. simpl.
  repeat split; try (intros ->; reflexivity); intros v ->; reflexivity.
Qed.

Lemma task_serialization_round_trip_witness :
  exists t, Task.from_dict (VDict [("title", VStr "Buy milk")]) = Ok t /\
    Task.status t = VStr "todo" /\ Task.id t = VNone /\
    Task.title t = VStr "Buy milk" /\ Task.description t = VNone.
Proof.
  destruct (task_serialization_round_trip
              (Task.mk (VInt 1) (VStr "a") (VStr "b") (VStr "done"))
              [("title", VStr "Buy milk")])
    as (_ & _ & _ & t & Ht & Hst & Hid & _ & Hde & _ & Hti & _).
  exists t. split; [exact Ht|]. split; [exact (Hst eq_refl)|].
  split; [exact (Hid eq_refl)|].
  split; [exact (Hti _ eq_refl)|exact (Hde eq_refl)].
Defined.

(** ** Loading *)

(** C3, at the contents where it fails: a file that is not UTF-8 makes
    [load_tasks] raise [UnicodeDecodeError], and a JSON document that is
    not a list of records makes it raise [TypeError] or
    [AttributeError]; only [JSONDecodeError] is turned into the empty
    list (as is a missing file), and a list of records is loaded record
    by record, in order. *)
Theorem load_tasks_surfaces_other_failures :
  outcome load_tasks (Some NotUtf8) = Raise UnicodeDecodeError /\
  outcome load_tasks (Some (Json (VInt 5))) = Raise TypeError /\
  outcome load_tasks (Some (Json (VList [VInt 1]))) = Raise AttributeError /\
  outcome load_tasks (Some (Json (VDict [("id", VInt 1)]))) =
    Raise AttributeError /\
  outcome load_tasks None = Ok [] /\
  outcome load_tasks (Some NotJson) = Ok [] /\
  (forall tasks, outcome load_tasks (saved tasks) = Ok tasks) /\
  (forall records,
     outcome load_tasks (Some (Json (VList (map VDict records)))) =
     Ok (map (fun d =>
                Task.mk (default VNone (dict_get "id" d))
                  (default VNone (dict_get "title" d))
                  (default VNone (dict_get "description" d))
                  (default (VStr "todo") (dict_get "status" d)))
           records)).
Proof.
  repeat split; try reflexivity.
  - apply load_tasks_saved.
  - intros records. rewrite load_tasks_records.
    induction records as [|d records IH]; simpl; [reflexivity|].
    now rewrite IH.
Qed.

(** ** Adding *)




(** ** Updating *)

(** C2, as the code has it: when the loaded collection has a task with
    the given id, [update_task] gives the first such task the new title
    and description, its id and status and all other tasks being as
    before, and saves: if the strings of that collection can be encoded
    (as they can when those of the loaded collection, the title and the
    description can), it returns [True] and the collection is saved;
    if not, it raises [UnicodeEncodeError] and leaves a cut-off file,
    which loads as the empty collection.  When no task has the id,
    [update_task] returns [False] and the store is the one it started
    from. *)
Theorem update_task_first_match_or_untouched
    (st : store) (tasks : list Task.t) (task_id : Z)
    (title description : string)
    (Hload : outcome load_tasks st = Ok tasks) :
  let st' := after (update_task task_id title description) st in
  if existsb (has_id task_id) tasks then
    exists before task rest,
      tasks = before ++ task :: rest /\
      forallb (fun t => negb (has_id task_id t)) before = true /\
      has_id task_id task = true /\
      let task' :=
        Task.mk (Task.id task) (VStr title) (VStr description)
          (Task.status task) in
      let tasks' := before ++ task' :: rest in
      (dumpable tasks = true -> encodable title = true ->
       encodable description = true -> dumpable tasks' = true) /\
      if dumpable tasks' then
        outcome (update_task task_id title description) st = Ok true /\
        st' = saved tasks' /\
        outcome load_tasks st' = Ok tasks'
      else
        outcome (update_task task_id title description) st =
          Raise UnicodeEncodeError /\
        st' = truncated tasks' /\
        outcome load_tasks st' = Ok []
  else
    outcome (update_task task_id title description) st = Ok false /\
    st' = st /\
    outcome load_tasks st' = Ok tasks.
Proof.
  cbv zeta. unfold outcome at 1 3 5, after.
  rewrite (update_task_run _ _ task_id title description Hload).
  destruct (existsb (has_id task_id) tasks) eqn:E.
  - destruct (first_match _ _ E) as (before & task & rest & -> & Hb & Ht).
    exists before, task, rest. rewrite change_first_found by assumption.
    repeat split; try assumption.
    + intros Hdump Hti Hde. apply (dumpable_replace _ task); [assumption|].
      apply (encodable_retitled title description task Hti Hde).
      apply (dumpable_member _ _ Hdump), in_or_app. right. now left.
    + fold (retitled title description task). unfold saving.
      destruct (dumpable _); simpl; repeat split. apply load_tasks_saved.
  - rewrite change_first_missing by assumption. simpl. now repeat split.
Qed.

Lemma update_task_first_match_or_untouched_witness :
  outcome (update_task 1 "x" "y")
    (saved [Task.mk (VInt 1) (VStr "a") (VStr "b") (VStr "done");
            Task.mk (VInt 2) (VStr "c") (VStr "") (VStr "todo")])
  = Ok true /\
  after (update_task 1 "x" "y")
    (saved [Task.mk (VInt 1) (VStr "a") (VStr "b") (VStr "done");
            Task.mk (VInt 2) (VStr "c") (VStr "") (VStr "todo")])
  = saved [Task.mk (VInt 1) (VStr "x") (VStr "y") (VStr "done");
           Task.mk (VInt 2) (VStr "c") (VStr "") (VStr "todo")].
Proof.
  destruct (update_task_first_match_or_untouched
              (saved [Task.mk (VInt 1) (VStr "a") (VStr "b") (VStr "done");
                      Task.mk (VInt 2) (VStr "c") (VStr "") (VStr "todo")])
              [Task.mk (VInt 1) (VStr "a") (VStr "b") (VStr "done");
               Task.mk (VInt 2) (VStr "c") (VStr "") (VStr "todo")]
              1 "x" "y" eq_refl)
    as (before & task & rest & Heq & Hb & Ht & Hdump & H).
  destruct before as [|t0 before].
  - injection Heq as <- <-. destruct H as (H1 & H2 & _).
    split; [exact H1|exact H2].
  - injection Heq as <- Heq. discriminate Hb.
Defined.

(** C2 as the claim states it fails: with a title that holds a lone
    surrogate the task is found but [update_task] raises
    [UnicodeEncodeError], and the collection is no longer loaded. *)
Lemma update_task_first_match_or_untouched_counterexample :
  outcome (update_task 1 lone_surrogate "")
    (saved [Task.mk (VInt 1) (VStr "a") (VStr "b") (VStr "done")]) =
    Raise UnicodeEncodeError /\
  outcome load_tasks
    (after (update_task 1 lone_surrogate "")
       (saved [Task.mk (VInt 1) (VStr "a") (VStr "b") (VStr "done")])) =
    Ok [].
Proof. repeat split. Qed.

(** ** Deleting *)

Lemma filter_sublist {A} (p : A -> bool) (l : list A) :
  sublist (List.filter p l) l.
Proof.
  induction l as [|x l IH]; simpl; [constructor|].
  destruct (p x); now constructor.
Qed.

Lemma filter_length_existsb {A} (p : A -> bool) (l : list A) :
  Nat.eqb (length (List.filter (fun x => negb (p x)) l)) (length l) =
  negb (existsb p l).
Proof.
  destruct (existsb p l) eqn:E; simpl.
  - apply Nat.eqb_neq. induction l as [|x l IH]; simpl in *; [discriminate|].
    pose proof (List.filter_length_le (fun x => negb (p x)) l).
    destruct (p x); simpl in *; [lia|]. specialize (IH E). lia.
  - apply Nat.eqb_eq. induction l as [|x l IH]; simpl in *; [reflexivity|].
    apply orb_false_iff in E as [-> E]. simpl. now rewrite IH.
Qed.

(** C6, as the code has it: [delete_task] keeps, in their order, exactly
    the tasks whose id differs from the given one.  When some task had
    that id the kept tasks are saved: if their strings can be encoded
    (as they can when those of the loaded collection can), the result is
    [True] and the kept tasks are the collection; if not,
    [UnicodeEncodeError] is raised and a cut-off file is left, which
    loads as the empty collection.  When no task had the id the result
    is [False] and the store is the one it started from. *)
Theorem delete_task_removes_matching
    (st : store) (tasks : list Task.t) (task_id : Z)
    (Hload : outcome load_tasks st = Ok tasks) :
  let remaining := List.filter (fun t => negb (has_id task_id t)) tasks in
  let st' := after (delete_task task_id) st in
  sublist remaining tasks /\
  (forall t, In t remaining <-> In t tasks /\ has_id task_id t = false) /\
  (dumpable tasks = true -> dumpable remaining = true) /\
  if existsb (has_id task_id) tasks then
    if dumpable remaining then
      outcome (delete_task task_id) st = Ok true /\
      st' = saved remaining /\
      outcome load_tasks st' = Ok remaining
    else
      outcome (delete_task task_id) st = Raise UnicodeEncodeError /\
      st' = truncated remaining /\
      outcome load_tasks st' = Ok []
  else
    outcome (delete_task task_id) st = Ok false /\
    st' = st /\
    remaining = tasks.
Proof.
  cbv zeta. split; [apply filter_sublist|]. split.
  { intros t. rewrite filter_In, negb_true_iff. tauto. }
  split; [apply dumpable_filter|].
  unfold outcome at 1 3 5, after.
  rewrite (delete_task_run _ _ task_id Hload). cbv zeta.
  rewrite filter_length_existsb.
  destruct (existsb (has_id task_id) tasks) eqn:E; simpl.
  - unfold saving. destruct (dumpable _); simpl; repeat split.
    apply load_tasks_saved.
  - repeat split. apply forallb_filter_id. apply forallb_forall.
    intros t Ht. apply negb_true_iff.
    destruct (has_id task_id t) eqn:Et; [|reflexivity].
    rewrite <- E. symmetry. apply existsb_exists. eauto.
Qed.

Lemma delete_task_removes_matching_witness :
  outcome (delete_task 3)
    (saved [Task.mk (VInt 3) (VStr "a") (VStr "") (VStr "todo");
            Task.mk (VInt 1) (VStr "b") (VStr "") (VStr "todo")])
  = Ok true /\
  after (delete_task 3)
    (saved [Task.mk (VInt 3) (VStr "a") (VStr "") (VStr "todo");
            Task.mk (VInt 1) (VStr "b") (VStr "") (VStr "todo")])
  = saved [Task.mk (VInt 1) (VStr "b") (VStr "") (VStr "todo")].
Proof.
  destruct (delete_task_removes_matching
              (saved [Task.mk (VInt 3) (VStr "a") (VStr "") (VStr "todo");
                      Task.mk (VInt 1) (VStr "b") (VStr "") (VStr "todo")])
              [Task.mk (VInt 3) (VStr "a") (VStr "") (VStr "todo");
               Task.mk (VInt 1) (VStr "b") (VStr "") (VStr "todo")]
              3 eq_refl) as (_ & _ & _ & H1 & H2 & _).
  split; [exact H1|exact H2].
Defined.

(** C6 as the claim states it fails: on a file one of whose kept tasks
    has a title with a lone surrogate (the escape [\udcff] in the file),
    the task with the id is found but [delete_task] raises
    [UnicodeEncodeError], and the kept task is no longer loaded. *)
Lemma delete_task_removes_matching_counterexample :
  outcome load_tasks
    (saved [Task.mk (VInt 1) (VStr "a") (VStr "") (VStr "todo");
            Task.mk (VInt 2) (VStr lone_surrogate) (VStr "") (VStr "todo")])
    = Ok [Task.mk (VInt 1) (VStr "a") (VStr "") (VStr "todo");
          Task.mk (VInt 2) (VStr lone_surrogate) (VStr "") (VStr "todo")] /\
  outcome (delete_task 1)
    (saved [Task.mk (VInt 1) (VStr "a") (VStr "") (VStr "todo");
            Task.mk (VInt 2) (VStr lone_surrogate) (VStr "") (VStr "todo")])
    = Raise UnicodeEncodeError /\
  outcome load_tasks
    (after (delete_task 1)
       (saved [Task.mk (VInt 1) (VStr "a") (VStr "") (VStr "todo");
               Task.mk (VInt 2) (VStr lone_surrogate) (VStr "")
                 (VStr "todo")]))
    = Ok [].
Proof. repeat split. Qed.

(** ** Changing the status *)

Lemma mark_task_raises st task_id new_status e :
  outcome load_tasks st = Raise e ->
  mark_task task_id new_status st = (Raise e, st).
Proof. intros H. unfold mark_task. now apply op_raises. Qed.

(** C7: marking a task twice with the same status leaves the store that
    marking it once leaves, so the collection loaded is the same, on
    every store and also when the first call raises; and when the first
    call returned, the second returns the same. *)
Theorem mark_task_idempotent
    (st : store) (task_id : Z) (new_status : string) :
  let once := after (mark_task task_id new_status) st in
  let twice := after (mark_task task_id new_status) once in
  twice = once /\
  outcome load_tasks twice = outcome load_tasks once /\
  (forall b, outcome (mark_task task_id new_status) st = Ok b ->
     outcome (mark_task task_id new_status) once = Ok b).
Proof.
  cbv zeta.
  assert (H : after (mark_task task_id new_status)
                (after (mark_task task_id new_status) st) =
              after (mark_task task_id new_status) st /\
              (forall b, outcome (mark_task task_id new_status) st = Ok b ->
                 outcome (mark_task task_id new_status)
                   (after (mark_task task_id new_status) st) = Ok b)).
  { unfold outcome, after.
    destruct (outcome load_tasks st) as [tasks|e] eqn:Hload.
    - rewrite (mark_task_run _ _ task_id new_status Hload).
      pose proof (change_first_again (restatused new_status) task_id
                    (fun _ => eq_refl) (fun _ => eq_refl) tasks) as Hagain.
      destruct (change_first _ _ tasks) as [tasks' [|]] eqn:Hfirst;
        cbn [fst snd].
      + unfold saving. destruct (dumpable tasks') eqn:Hdump; cbn [fst snd].
        * rewrite (mark_task_run _ _ task_id new_status
                     (load_tasks_saved tasks')), Hagain.
          unfold saving. rewrite Hdump. now split.
        * rewrite (mark_task_run _ _ task_id new_status
                     (load_tasks_truncated tasks')). simpl.
          split; [reflexivity|discriminate].
      + rewrite (mark_task_run _ _ task_id new_status Hload), Hfirst.
        now split.
    - rewrite (mark_task_raises _ task_id new_status _ Hload). simpl.
      rewrite (mark_task_raises _ task_id new_status _ Hload).
      split; [reflexivity|discriminate]. }
  destruct H as [Hst Hret]. rewrite Hst. now repeat split.
Qed.




(** ** Listing *)

Lemma filter_split_perm {A} (p : A -> bool) (l : list A) :
  Permutation (List.filter p l ++ List.filter (fun x => negb (p x)) l) l.
Proof.
  induction l as [|x l IH]; simpl; [constructor|].
  destruct (p x); simpl.
  - now constructor.
  - rewrite <- Permutation_middle. now constructor.
Qed.

Lemma status_is_done (task : Task.t) :
  py_eq (Task.status task) (VStr "done") = true <->
  Task.status task = VStr "done".
Proof.
  destruct (Task.status task); simpl; try (split; discriminate).
  rewrite String.eqb_eq. split; congruence.
Qed.

Lemma list_tasks_all_is_load (st : store) :
  outcome (list_tasks "all") st = outcome load_tasks st.
Proof.
  unfold outcome at 1, list_tasks.
  destruct (outcome load_tasks st) as [tasks|e] eqn:Hload.
  - now rewrite (op_loaded _ _ _ Hload).
  - now rewrite (op_raises _ _ _ Hload).
Qed.

(** C8: [list_tasks "done"] and [list_tasks "not_done"] split
    [list_tasks "all"]: both keep the order of the collection, together
    they hold its tasks once each, the first holds the tasks whose
    status is ["done"] and the second the others, and no task is in
    both. *)
Theorem list_tasks_done_not_done_partition
    (st : store) (all : list Task.t)
    (Hall : outcome (list_tasks "all") st = Ok all) :
  exists done not_done,
    outcome (list_tasks "done") st = Ok done /\
    outcome (list_tasks "not_done") st = Ok not_done /\
    Permutation (done ++ not_done) all /\
    sublist done all /\
    sublist not_done all /\
    (forall t, In t done <-> In t all /\ Task.status t = VStr "done") /\
    (forall t, In t not_done <-> In t all /\ Task.status t <> VStr "done") /\
    (forall t, In t all ->
       (In t done /\ ~ In t not_done) \/ (In t not_done /\ ~ In t done)).
Proof.
  rewrite list_tasks_all_is_load in Hall.
  set (is_done := fun task => py_eq (Task.status task) (VStr "done")).
  exists (List.filter is_done all),
         (List.filter (fun t => negb (is_done t)) all).
  assert (Hdone : forall t, In t (List.filter is_done all) <->
                    In t all /\ Task.status t = VStr "done").
  { intros t. rewrite filter_In. unfold is_done.
    now rewrite status_is_done. }
  assert (Hnot : forall t,
             In t (List.filter (fun t => negb (is_done t)) all) <->
             In t all /\ Task.status t <> VStr "done").
  { intros t. rewrite filter_In, negb_true_iff. unfold is_done.
    rewrite <- status_is_done. now destruct (py_eq _ _). }
  split; [|split].
  { unfold outcome, list_tasks. now rewrite (op_loaded _ _ _ Hall). }
  { unfold outcome, list_tasks. now rewrite (op_loaded _ _ _ Hall). }
  split; [apply filter_split_perm|].
  split; [apply filter_sublist|]. split; [apply filter_sublist|].
  split; [exact Hdone|]. split; [exact Hnot|].
  intros t Ht. rewrite Hdone, Hnot.
  destruct (status_is_done t) as [H1 _]. fold (is_done t) in H1.
  destruct (is_done t) eqn:E.
  - left. specialize (H1 eq_refl). tauto.
  - right. assert (Task.status t <> VStr "done").
    { intros H. apply status_is_done in H. fold (is_done t) in H.
      congruence. }
    tauto.
Qed.

Lemma list_tasks_done_not_done_partition_witness :
  exists done not_done,
    outcome (list_tasks "done")
      (saved [Task.mk (VInt 1) (VStr "a") (VStr "") (VStr "done");
              Task.mk (VInt 2) (VStr "b") (VStr "") (VStr "todo")])
    = Ok done /\
    outcome (list_tasks "not_done")
      (saved [Task.mk (VInt 1) (VStr "a") (VStr "") (VStr "done");
              Task.mk (VInt 2) (VStr "b") (VStr "") (VStr "todo")])
    = Ok not_done /\
    Permutation (done ++ not_done)
      [Task.mk (VInt 1) (VStr "a") (VStr "") (VStr "done");
       Task.mk (VInt 2) (VStr "b") (VStr "") (VStr "todo")].
Proof.
  destruct (list_tasks_done_not_done_partition
              (saved [Task.mk (VInt 1) (VStr "a") (VStr "") (VStr "done");
                      Task.mk (VInt 2) (VStr "b") (VStr "") (VStr "todo")])
              [Task.mk (VInt 1) (VStr "a") (VStr "") (VStr "done");
               Task.mk (VInt 2) (VStr "b") (VStr "") (VStr "todo")]
              eq_refl) as (done & not_done & H1 & H2 & H3 & _).
  exists done, not_done. split; [exact H1|]. split; [exact H2|exact H3].
Defined.

(** ** Sequences of operations *)

Lemma holds_ids_saved (tasks : list Task.t) (zs : list Z) :
  map Task.id tasks = map VInt zs -> holds_ids (saved tasks) zs.
Proof. intros H. exists tasks. split; [apply load_tasks_saved|exact H]. Qed.

Lemma filter_int_ids (p : Task.t -> bool) (tasks : list Task.t) :
  forall zs, map Task.id tasks = map VInt zs ->
  exists zs', map Task.id (List.filter p tasks) = map VInt zs' /\
              sublist zs' zs.
Proof.
  induction tasks as [|t tasks IH]; intros [|z zs] H; try discriminate.
  - exists []. split; [reflexivity|constructor].
  - simpl in H. injection H as Ht H.
    destruct (IH zs H) as (zs' & Hzs' & Hsub). simpl.
    destruct (p t).
    + exists (z :: zs'). simpl. split; [congruence|now constructor].
    + exists zs'. split; [assumption|now constructor].
Qed.

Lemma holds_ids_truncated (tasks : list Task.t) :
  holds_ids (truncated tasks) [].
Proof. now exists []. Qed.

Lemma distinct_ids_saving {A} (tasks : list Task.t) (a : A) (zs : list Z) :
  map Task.id tasks = map VInt zs -> NoDup zs ->
  distinct_ids (snd (saving tasks a)).
Proof.
  intros Hids Hnodup. unfold saving. destruct (dumpable tasks); simpl.
  - exists zs. split; [now apply holds_ids_saved|assumption].
  - exists []. split; [apply holds_ids_truncated|constructor].
Qed.

Lemma NoDup_next_id (zs : list Z) : NoDup zs -> NoDup (zs ++ [next_id zs]).
Proof.
  intros H. apply NoDup_app. split; [assumption|]. split.
  - intros z Hz ->%list_elem_of_singleton.
    apply list_elem_of_In, next_id_fresh in Hz. lia.
  - apply NoDup_singleton.
Qed.

Lemma step_distinct_ids (o : op) (st : store) :
  distinct_ids st -> distinct_ids (step o st).
Proof.
  intros (zs & (tasks & Hload & Hids) & Hnodup).
  assert (Hsame : distinct_ids st)
    by (exists zs; split; [now exists tasks|assumption]).
  destruct o as [ti de|i ti de|i|i s]; simpl; unfold after.
  - rewrite (add_task_run _ _ _ ti de Hload
               (get_new_task_id_next_id _ _ Hids)).
    apply (distinct_ids_saving _ _ (zs ++ [next_id zs]));
      [|now apply NoDup_next_id].
    rewrite !map_app, Hids. reflexivity.
  - rewrite (update_task_run _ _ i ti de Hload).
    pose proof (change_first_ids (retitled ti de) i (fun _ => eq_refl) tasks)
      as Hkeep.
    destruct (change_first _ _ _) as [tasks' [|]]; simpl in Hkeep;
      [|exact Hsame].
    apply (distinct_ids_saving _ _ zs); [congruence|assumption].
  - rewrite (delete_task_run _ _ i Hload). cbv zeta.
    destruct (Nat.eqb _ _); [exact Hsame|].
    destruct (filter_int_ids (fun t => negb (has_id i t)) _ _ Hids)
      as (zs' & Hzs' & Hsub).
    apply (distinct_ids_saving _ _ zs'); [assumption|].
    exact (sublist_NoDup _ _ Hnodup Hsub).
  - rewrite (mark_task_run _ _ i s Hload).
    pose proof (change_first_ids (restatused s) i (fun _ => eq_refl) tasks)
      as Hkeep.
    destruct (change_first _ _ _) as [tasks' [|]]; simpl in Hkeep;
      [|exact Hsame].
    apply (distinct_ids_saving _ _ zs); [congruence|assumption].
Qed.

Lemma run_distinct_ids (ops : list op) :
  forall st, distinct_ids st -> distinct_ids (run ops st).
Proof.
  unfold run. induction ops as [|o ops IH]; intros st H; simpl; [exact H|].
  apply IH. now apply step_distinct_ids.
Qed.

Lemma add_task_on_dumpable st zs title description :
  holds_dumpable st zs ->
  encodable title = true -> encodable description = true ->
  let task := Task.mk (VInt (next_id zs)) (VStr title) (VStr description)
                (VStr "todo") in
  exists tasks,
    outcome load_tasks st = Ok tasks /\
    map Task.id tasks = map VInt zs /\
    add_task title description st = (Ok task, saved (tasks ++ [task])) /\
    holds_dumpable (saved (tasks ++ [task])) (zs ++ [next_id zs]).
Proof.
  intros (tasks & Hload & Hids & Hdump) Hti Hde task. exists tasks.
  assert (Hdump' : dumpable (tasks ++ [task]) = true).
  { rewrite dumpable_app, Hdump, dumpable_forall. simpl. unfold task.
    now rewrite encodable_new_task, Hti, Hde. }
  split; [exact Hload|]. split; [exact Hids|]. split.
  - rewrite (add_task_run _ _ _ title description Hload
               (get_new_task_id_next_id _ _ Hids)).
    now apply saving_saved.
  - exists (tasks ++ [task]). split; [apply load_tasks_saved|].
    split; [|exact Hdump']. rewrite !map_app, Hids. reflexivity.
Qed.

Lemma add_each_ids (args : list (string * string)) :
  forall st zs, holds_dumpable st zs ->
  forallb encodable_args args = true ->
  exists created cs,
    add_each args st = map Ok created /\
    outcome (add_all args) st = Ok created /\
    map Task.id created = map VInt cs /\
    NoDup cs /\
    forall c, In c cs -> forall z, In z zs -> z < c.
Proof.
  induction args as [|[title description] args IH]; intros st zs Hzs Hargs.
  - exists [], []. repeat split; [constructor|intros c []].
  - simpl in Hargs. apply andb_true_iff in Hargs as [Ha Hargs].
    apply andb_true_iff in Ha as [Hti Hde]. simpl in Hti, Hde.
    destruct (add_task_on_dumpable _ _ title description Hzs Hti Hde)
      as (tasks & Hload & Hids & Hrun & Hzs').
    destruct (IH _ _ Hzs' Hargs)
      as (created & cs & Heach & Hout & Hcids & Hnodup & Hgt).
    eexists (_ :: created), (next_id zs :: cs).
    split; [|split; [|split; [|split]]].
    + simpl. rewrite Hrun, Heach. reflexivity.
    + unfold outcome in *. simpl. unfold bind at 1. rewrite Hrun.
      unfold bind at 1.
      destruct (add_all args _) as [r st']; simpl in *. now rewrite Hout.
    + simpl. now rewrite Hcids.
    + apply NoDup_cons. split; [|assumption].
      intros Hin%list_elem_of_In. specialize (Hgt _ Hin (next_id zs)).
      rewrite in_app_iff in Hgt. simpl in Hgt. lia.
    + intros c [<-|Hc] z Hz; [now apply next_id_fresh|].
      apply (Hgt c Hc). apply in_or_app. now left.
Qed.

Lemma distinct_ids_initial (st0 : store) :
  st0 = None \/ st0 = saved [] ->
  holds_dumpable st0 [] /\ distinct_ids st0.
Proof.
  assert (H : holds_dumpable st0 [] ->
              holds_dumpable st0 [] /\ distinct_ids st0).
  { intros H. split; [exact H|]. destruct H as (tasks & Hload & Hids & _).
    exists []. split; [now exists tasks|constructor]. }
  intros [->| ->]; apply H; now exists [].
Qed.

(** C1, as the code has it: starting from a missing or an empty
    [tasks.json], after every operation of any sequence of adds,
    updates, deletes and status changes the store loads as a collection
    whose ids are pairwise distinct integers; and in a sequence of
    [add_task] calls whose titles and descriptions can be encoded every
    call returns a task, and the ids of these tasks are pairwise
    distinct. *)
Theorem ids_stay_pairwise_distinct
    (st0 : store) (Hinit : st0 = None \/ st0 = saved []) :
  (forall (ops : list op) (k : nat),
     exists tasks zs,
       outcome load_tasks (run (firstn k ops) st0) = Ok tasks /\
       map Task.id tasks = map VInt zs /\
       NoDup zs) /\
  (forall args : list (string * string),
     forallb encodable_args args = true ->
     exists created cs,
       add_each args st0 = map Ok created /\
       outcome (add_all args) st0 = Ok created /\
       length created = length args /\
       map Task.id created = map VInt cs /\
       NoDup cs).
Proof.
  destruct (distinct_ids_initial _ Hinit) as [Hempty Hdistinct]. split.
  - intros ops k.
    destruct (run_distinct_ids (firstn k ops) _ Hdistinct)
      as (zs & (tasks & Hload & Hids) & Hnodup).
    now exists tasks, zs.
  - intros args Hargs.
    destruct (add_each_ids args _ _ Hempty Hargs)
      as (created & cs & Heach & Hout & Hids & Hnodup & _).
    exists created, cs. repeat split; try assumption.
    apply (f_equal (@length _)) in Heach. rewrite length_map in Heach.
    rewrite <- Heach. clear. revert st0.
    induction args as [|[ti de] args IH]; intros st; [reflexivity|].
    simpl. destruct (add_task ti de st) as [r st']. simpl.
    now rewrite IH.
Qed.

Lemma ids_stay_pairwise_distinct_witness :
  exists tasks zs,
    outcome load_tasks
      (run [Add "a" ""; Add "b" ""; Delete 2; Add "c" "";
            SetStatus 1 "done"; Update 2 "d" "e"] None) = Ok tasks /\
    map Task.id tasks = map VInt zs /\ NoDup zs.
Proof.
  exact (proj1 (ids_stay_pairwise_distinct None (or_introl eq_refl))
           [Add "a" ""; Add "b" ""; Delete 2; Add "c" "";
            SetStatus 1 "done"; Update 2 "d" "e"] 6%nat).
Defined.

(** C1 as the claim states it fails: of three [add_task] calls on a
    missing file, the second with a title that holds a lone surrogate,
    the first returns a task with id 1, the second raises
    [UnicodeEncodeError] and leaves a cut-off file, and the third
    returns a task with id 1 again. *)
Lemma ids_stay_pairwise_distinct_counterexample :
  add_each [("a", ""); (lone_surrogate, ""); ("c", "")] None =
    [Ok (Task.mk (VInt 1) (VStr "a") (VStr "") (VStr "todo"));
     Raise UnicodeEncodeError;
     Ok (Task.mk (VInt 1) (VStr "c") (VStr "") (VStr "todo"))] /\
  ~ NoDup (map Task.id
             (returned
                (add_each [("a", ""); (lone_surrogate, ""); ("c", "")]
                   None))).
Proof.
  split; [reflexivity|]. simpl. intros H.
  apply NoDup_cons in H as [H _]. apply H. now left.
Qed.

(** ** The scenarios of the specification *)

Example scenario_first_add :
  add_task "Buy milk" "" None =
  (Ok (Task.mk (VInt 1) (VStr "Buy milk") (VStr "") (VStr "todo")),
   saved [Task.mk (VInt 1) (VStr "Buy milk") (VStr "") (VStr "todo")]).
Proof. reflexivity. Qed.

Example scenario_mark_done :
  let st := saved [Task.mk (VInt 1) (VStr "a") (VStr "") (VStr "todo")] in
  let st' := after (mark_task 1 "done") st in
  outcome (mark_task 1 "done") st = Ok true /\
  outcome (list_tasks "done") st' =
    Ok [Task.mk (VInt 1) (VStr "a") (VStr "") (VStr "done")] /\
  outcome (list_tasks "in_progress") st' = Ok [].
Proof. repeat split. Qed.

Example scenario_delete_max_reuses_id :
  let st := Some (Json (VList [VDict [("id", VInt 3)];
                               VDict [("id", VInt 1)]])) in
  let st' := after (delete_task 3) st in
  outcome (delete_task 3) st = Ok true /\
  rbind (outcome load_tasks st') get_new_task_id = Ok (VInt 2).
Proof. repeat split. Qed.

Example scenario_unknown_filter :
  let st := saved [Task.mk (VInt 1) (VStr "a") (VStr "") (VStr "done")] in
  outcome (list_tasks "urgent") st = outcome (list_tasks "all") st.
Proof. reflexivity. Qed.

Example scenario_true_is_one :
  let st := Some (Json (VList [VDict [("id", VBool true)]])) in
  outcome (delete_task 1) st = Ok true /\
  after (delete_task 1) st = saved [].
Proof. repeat split. Qed.

(** * Further properties of the store *)

(** ** Listing *)

Lemma list_tasks_run (filter_by : string) (st : store) tasks :
  outcome load_tasks st = Ok tasks ->
  list_tasks filter_by st =
  (Ok (if String.eqb filter_by "all" then tasks
       else if String.eqb filter_by "done" then
         List.filter (fun t => py_eq (Task.status t) (VStr "done")) tasks
       else if String.eqb filter_by "not_done" then
         List.filter (fun t => negb (py_eq (Task.status t) (VStr "done")))
           tasks
       else if String.eqb filter_by "in_progress" then
         List.filter (fun t => py_eq (Task.status t) (VStr "in_progress"))
           tasks
       else tasks), st).
Proof.
  intros Hload. unfold list_tasks. rewrite (op_loaded _ _ _ Hload).
  repeat (destruct (String.eqb filter_by _); [reflexivity|]). reflexivity.
Qed.

Lemma list_tasks_keeps_store (filter_by : string) (st : store) :
  after (list_tasks filter_by) st = st.
Proof.
  unfold after. destruct (outcome load_tasks st) as [tasks|e] eqn:Hload.
  - now rewrite (list_tasks_run _ _ _ Hload).
  - unfold list_tasks. now rewrite (op_raises _ _ _ Hload).
Qed.

(** X1: a filter other than ["done"], ["not_done"] and ["in_progress"]
    lists what ["all"] lists, on every store; and no listing changes the
    store. *)
Theorem list_tasks_unknown_filter_lists_all
    (filter_by : string) (st : store)
    (Hdone : filter_by <> "done")
    (Hnot_done : filter_by <> "not_done")
    (Hin_progress : filter_by <> "in_progress") :
  outcome (list_tasks filter_by) st = outcome (list_tasks "all") st /\
  outcome (list_tasks filter_by) st = outcome load_tasks st /\
  after (list_tasks filter_by) st = st.
Proof.
  split; [|split; [|apply list_tasks_keeps_store]].
  - apply String.eqb_neq in Hdone, Hnot_done, Hin_progress.
    unfold outcome.
    destruct (outcome load_tasks st) as [tasks|e] eqn:Hload.
    + rewrite !(list_tasks_run _ _ _ Hload).
      rewrite Hdone, Hnot_done, Hin_progress. simpl.
      now destruct (String.eqb filter_by "all").
    + unfold list_tasks. now rewrite !(op_raises _ _ _ Hload).
  - apply String.eqb_neq in Hdone, Hnot_done, Hin_progress.
    unfold outcome at 1.
    destruct (outcome load_tasks st) as [tasks|e] eqn:Hload.
    + rewrite (list_tasks_run _ _ _ Hload).
      rewrite Hdone, Hnot_done, Hin_progress. simpl.
      now destruct (String.eqb filter_by "all").
    + unfold list_tasks. now rewrite (op_raises _ _ _ Hload).
Qed.

Lemma list_tasks_unknown_filter_lists_all_witness :
  outcome (list_tasks "todo")
    (saved [Task.mk (VInt 1) (VStr "a") (VStr "") (VStr "done");
            Task.mk (VInt 2) (VStr "b") (VStr "") (VStr "todo")])
  = Ok [Task.mk (VInt 1) (VStr "a") (VStr "") (VStr "done");
        Task.mk (VInt 2) (VStr "b") (VStr "") (VStr "todo")].
Proof.
  refine (proj1 (proj2 (list_tasks_unknown_filter_lists_all "todo"
            (saved [Task.mk (VInt 1) (VStr "a") (VStr "") (VStr "done");
                    Task.mk (VInt 2) (VStr "b") (VStr "") (VStr "todo")])
            _ _ _))); discriminate.
Defined.

Lemma py_eq_str (v : value) (s : string) :
  py_eq v (VStr s) = true <-> v = VStr s.
Proof.
  destruct v; simpl; try (split; discriminate).
  rewrite String.eqb_eq. split; congruence.
Qed.

Lemma filter_sublist_imp {A} (p q : A -> bool) (l : list A) :
  (forall x, p x = true -> q x = true) ->
  sublist (List.filter p l) (List.filter q l).
Proof.
  intros Hpq. induction l as [|x l IH]; simpl; [constructor|].
  destruct (p x) eqn:Hp.
  - rewrite (Hpq x Hp). now constructor.
  - destruct (q x); [now constructor|assumption].
Qed.

(** X2: the tasks listed as ["in_progress"] are listed, in the same
    order, among the ["not_done"] ones and never among the ["done"]
    ones; they are the tasks of the collection whose status is the
    string ["in_progress"]. *)
Theorem list_tasks_in_progress_within_not_done
    (st : store) (tasks : list Task.t)
    (Hload : outcome load_tasks st = Ok tasks) :
  exists in_progress not_done done,
    outcome (list_tasks "in_progress") st = Ok in_progress /\
    outcome (list_tasks "not_done") st = Ok not_done /\
    outcome (list_tasks "done") st = Ok done /\
    sublist in_progress not_done /\
    (forall t, In t in_progress -> ~ In t done) /\
    (forall t, In t in_progress <->
               In t tasks /\ Task.status t = VStr "in_progress").
Proof.
  unfold outcome. rewrite !(list_tasks_run _ _ _ Hload). simpl.
  do 3 eexists. do 3 (split; [reflexivity|]). split; [|split].
  - apply filter_sublist_imp. intros t Ht%py_eq_str.
    rewrite Ht. reflexivity.
  - intros t [_ Ht%py_eq_str]%filter_In [_ Hd%py_eq_str]%filter_In.
    congruence.
  - intros t. now rewrite filter_In, py_eq_str.
Qed.

Lemma list_tasks_in_progress_within_not_done_witness :
  exists in_progress not_done,
    outcome (list_tasks "in_progress")
      (saved [Task.mk (VInt 1) (VStr "a") (VStr "") (VStr "in_progress");
              Task.mk (VInt 2) (VStr "b") (VStr "") (VStr "todo")])
    = Ok in_progress /\
    outcome (list_tasks "not_done")
      (saved [Task.mk (VInt 1) (VStr "a") (VStr "") (VStr "in_progress");
              Task.mk (VInt 2) (VStr "b") (VStr "") (VStr "todo")])
    = Ok not_done /\
    sublist in_progress not_done.
Proof.
  destruct (list_tasks_in_progress_within_not_done
              (saved [Task.mk (VInt 1) (VStr "a") (VStr "")
                        (VStr "in_progress");
                      Task.mk (VInt 2) (VStr "b") (VStr "") (VStr "todo")])
              [Task.mk (VInt 1) (VStr "a") (VStr "") (VStr "in_progress");
               Task.mk (VInt 2) (VStr "b") (VStr "") (VStr "todo")]
              eq_refl) as (ip & nd & d & H1 & H2 & _ & H3 & _).
  exists ip, nd. split; [exact H1|]. split; [exact H2|exact H3].
Defined.

(** ** A collection that cannot be loaded *)

(** X3: when [load_tasks] raises, each of [add_task], [update_task],
    [delete_task], [mark_task] and [list_tasks] raises the same
    exception and leaves the file as it was. *)
Theorem operations_propagate_load_failure
    (st : store) (e : exn)
    (Hload : outcome load_tasks st = Raise e) :
  (forall title description,
     add_task title description st = (Raise e, st)) /\
  (forall task_id title description,
     update_task task_id title description st = (Raise e, st)) /\
  (forall task_id, delete_task task_id st = (Raise e, st)) /\
  (forall task_id new_status,
     mark_task task_id new_status st = (Raise e, st)) /\
  (forall filter_by, list_tasks filter_by st = (Raise e, st)).
Proof.
  repeat split; intros; now apply op_raises.
Qed.

Lemma operations_propagate_load_failure_witness :
  add_task "a" "b" (Some (Json (VList [VStr "x"]))) =
    (Raise AttributeError, Some (Json (VList [VStr "x"]))) /\
  delete_task 1 (Some NotUtf8) = (Raise UnicodeDecodeError, Some NotUtf8).
Proof.
  split.
  - exact (proj1 (operations_propagate_load_failure
                    (Some (Json (VList [VStr "x"]))) AttributeError eq_refl)
             "a" "b").
  - exact (proj1 (proj2 (proj2
             (operations_propagate_load_failure
                (Some NotUtf8) UnicodeDecodeError eq_refl))) 1).
Defined.

(** ** What the result of a call says about the file *)



(** ** A file that is missing or is not JSON *)

(** X5: a missing file, a file that [json.load] rejects with
    [JSONDecodeError], and so a file that a failed save has cut off, are
    all an empty collection: every listing is empty, and [update_task],
    [delete_task] and [mark_task] return [False] and leave the file as
    it was.  [add_task] gives the id 1: when the title and the
    description can be encoded it returns the task and writes a file
    holding that task alone, so that what the file held before is gone;
    when not, it raises [UnicodeEncodeError] and leaves a cut-off
    file. *)
Theorem missing_or_invalid_file_is_empty_collection
    (st : store)
    (Hst : st = None \/ st = Some NotJson \/
           exists doc, st = Some (Truncated doc)) :
  (forall filter_by, list_tasks filter_by st = (Ok [], st)) /\
  (forall task_id title description,
     update_task task_id title description st = (Ok false, st)) /\
  (forall task_id, delete_task task_id st = (Ok false, st)) /\
  (forall task_id new_status,
     mark_task task_id new_status st = (Ok false, st)) /\
  (forall title description,
     let task := Task.mk (VInt 1) (VStr title) (VStr description)
                   (VStr "todo") in
     add_task title description st =
     if encodable title && encodable description
     then (Ok task, saved [task])
     else (Raise UnicodeEncodeError, truncated [task])).
Proof.
  assert (Hload : outcome load_tasks st = Ok [])
    by now destruct Hst as [->|[->|[doc ->]]].
  split; [|split; [|split; [|split]]].
  - intros f. rewrite (list_tasks_run _ _ _ Hload).
    repeat (destruct (String.eqb f _); [reflexivity|]). reflexivity.
  - intros. now rewrite (update_task_run _ _ _ _ _ Hload).
  - intros. now rewrite (delete_task_run _ _ _ Hload).
  - intros. now rewrite (mark_task_run _ _ _ _ Hload).
  - intros. rewrite (add_task_run _ _ _ title description Hload eq_refl).
    cbv zeta. fold task. simpl app. unfold saving.
    rewrite dumpable_forall. simpl. unfold task.
    rewrite encodable_new_task, andb_true_r. reflexivity.
Qed.

Lemma missing_or_invalid_file_is_empty_collection_witness :
  add_task "Buy milk" "" (Some NotJson) =
    (Ok (Task.mk (VInt 1) (VStr "Buy milk") (VStr "") (VStr "todo")),
     saved [Task.mk (VInt 1) (VStr "Buy milk") (VStr "") (VStr "todo")]) /\
  mark_task 1 "done" (Some NotJson) = (Ok false, Some NotJson).
Proof.
  destruct (missing_or_invalid_file_is_empty_collection (Some NotJson)
              (or_intror (or_introl eq_refl)))
    as (_ & _ & _ & Hmark & Hadd).
  split; [exact (Hadd "Buy milk" "")|exact (Hmark 1 "done")].
Defined.

(** ** When loading succeeds *)

Lemma utf8_chars_nil (s : string) : utf8_chars s = [] -> s = "".
Proof.
  destruct s as [|c rest]; [reflexivity|]. simpl.
  destruct rest as [|c' rest']; [discriminate|].
  destruct (is_continuation c'); [|discriminate].
  destruct (utf8_chars (String c' rest')); discriminate.
Qed.

Lemma rmap_from_dict_cases (items : list value) :
  (exists ds, items = map VDict ds) \/
  rmap Task.from_dict items = Raise AttributeError.
Proof.
  induction items as [|x items IH]; [left; now exists []|].
  destruct x; try (right; reflexivity).
  destruct IH as [[ds ->]|IH].
  - left. now exists (d :: ds).
  - right. simpl. now rewrite IH.
Qed.

Lemma rmap_from_dict_dicts (ds : list (list (string * value))) :
  exists tasks, rmap Task.from_dict (map VDict ds) = Ok tasks.
Proof.
  induction ds as [|d ds [tasks IH]]; [now exists []|].
  eexists. simpl. rewrite IH. reflexivity.
Qed.

Lemma rmap_from_dict_strs (strs : list string) :
  rmap Task.from_dict (map VStr strs) =
  match strs with
  | [] => Ok []
  | _ :: _ => Raise AttributeError
  end.
Proof. now destruct strs. Qed.

Lemma load_tasks_document (doc : value) :
  outcome load_tasks (Some (Json doc)) =
  rbind (py_iter doc) (rmap Task.from_dict).
Proof.
  assert (H : rbind (py_iter doc) (rmap Task.from_dict)
              <> Raise JSONDecodeError).
  { destruct (py_iter doc) as [items|e] eqn:Hiter; simpl.
    - destruct (rmap_from_dict_cases items) as [[ds ->]| ->]; [|discriminate].
      now destruct (rmap_from_dict_dicts ds) as [tasks ->].
    - destruct doc; simpl in Hiter; try discriminate;
        now injection Hiter as <-. }
  unfold outcome, load_tasks. cbv zeta. simpl json_load.
  change (rbind (Ok doc) ?k) with (k doc). cbv beta.
  change (fun items => rmap Task.from_dict items) with (rmap Task.from_dict).
  destruct (rbind (py_iter doc) (rmap Task.from_dict)) as [?|[]];
    try reflexivity.
  now contradiction H.
Qed.

(** X6: which files [load_tasks] loads.  It returns a collection for a
    missing file, for a file that [json.load] rejects with
    [JSONDecodeError] (a file cut off by a failed save among them), and
    for a JSON document that is a list of objects, an empty object or
    an empty string, and for no other file.  On the others it raises
    what [json.load] raises ([UnicodeDecodeError] on bytes that are not
    UTF-8, [RecursionError] on text nested too deep, [ValueError] on an
    integer of too many digits), [TypeError] on a document that is
    [null], a boolean or an integer, and [AttributeError] on the
    remaining documents. *)
Theorem load_tasks_returns_iff (st : store) :
  ((exists tasks, outcome load_tasks st = Ok tasks) <->
   st = None \/ st = Some NotJson \/
   (exists doc, st = Some (Truncated doc)) \/
   st = Some (Json (VStr "")) \/ st = Some (Json (VDict [])) \/
   exists ds, st = Some (Json (VList (map VDict ds)))) /\
  (forall e, outcome load_tasks st = Raise e ->
     (st = Some NotUtf8 /\ e = UnicodeDecodeError) \/
     (st = Some TooDeep /\ e = RecursionError) \/
     (st = Some TooManyDigits /\ e = ValueError) \/
     (exists doc, st = Some (Json doc) /\
                  (doc = VNone \/ is_number doc = true) /\ e = TypeError) \/
     (exists doc, st = Some (Json doc) /\ is_number doc = false /\
                  doc <> VNone /\ e = AttributeError)).
Proof.
  split; [split|].
  - intros [tasks H].
    destruct st as [[| |doc|doc| |]|]; auto; try discriminate.
    + rewrite load_tasks_document in H.
      destruct doc as [| | |s|l|d]; try discriminate; simpl in H.
      * rewrite rmap_from_dict_strs in H.
        destruct (utf8_chars s) eqn:E; [|discriminate].
        apply utf8_chars_nil in E. subst s. auto.
      * destruct (rmap_from_dict_cases l) as [Hds|Hraise]; [|congruence].
        do 5 right. destruct Hds as [ds ->]. now exists ds.
      * destruct d as [|[k v] d]; [auto 6|discriminate].
    + right. right. left. now exists doc.
  - intros [->|[->|[[doc ->]|[->|[->|[ds ->]]]]]]; try (now exists []).
    rewrite load_tasks_document. apply rmap_from_dict_dicts.
  - intros e H. destruct st as [[| |doc|doc| |]|]; try discriminate.
    + left. split; [reflexivity|]. now injection H as <-.
    + do 3 right. rewrite load_tasks_document in H.
      destruct doc as [| | |s|l|d]; simpl in H.
      * left. eexists. split; [reflexivity|]. injection H as <-. auto.
      * left. eexists. split; [reflexivity|]. injection H as <-. auto.
      * left. eexists. split; [reflexivity|]. injection H as <-. auto.
      * right. eexists. split; [reflexivity|]. repeat split; [easy|].
        rewrite rmap_from_dict_strs in H.
        destruct (utf8_chars s); [discriminate|]. now injection H as <-.
      * right. eexists. split; [reflexivity|]. repeat split; [easy|].
        destruct (rmap_from_dict_cases l) as [[ds ->]|Hraise];
          [|congruence].
        destruct (rmap_from_dict_dicts ds) as [tasks Hok]. congruence.
      * right. eexists. split; [reflexivity|]. repeat split; [easy|].
        destruct d as [|[k v] d]; [discriminate|]. now injection H as <-.
    + right. left. split; [reflexivity|]. now injection H as <-.
    + right. right. left. split; [reflexivity|]. now injection H as <-.
Qed.

(** ** Identifiers that are not numbers *)

Lemma py_gt_raises : forall a b e, py_gt a b = Raise e -> e = TypeError.
Proof.
  fix IH 1. intros a b e.
  destruct a as [| | | |l|]; destruct b as [| | | |m|]; simpl;
    try congruence.
  revert l m. fix IHl 1.
  intros [|x l] [|y m]; try congruence.
  destruct (py_eq x y); [apply IHl|apply IH].
Qed.

Lemma py_gt_mixed (a b : value) :
  is_number a <> is_number b -> py_gt a b = Raise TypeError.
Proof. intros H. destruct a, b; cbn in *; congruence. Qed.

Lemma py_gt_numbers (a b : value) (x y : Z) :
  as_number a = Some x -> as_number b = Some y ->
  py_gt a b = Ok (Z.ltb y x).
Proof. intros Ha Hb. destruct a, b; cbn in *; congruence. Qed.

Lemma max_loop_raised (xs : list value) (e : exn) :
  fold_left max_step xs (Raise e) = Raise e.
Proof. induction xs as [|x xs IH]; simpl; [reflexivity|exact IH]. Qed.

Lemma max_loop_numbers (xs : list value) :
  forall m n ns,
    as_number m = Some n -> map as_number xs = map Some ns ->
    exists m', fold_left max_step xs (Ok m) = Ok m' /\
               as_number m' = Some (max_of n ns).
Proof.
  induction xs as [|x xs IH]; intros m n [|k ns] Hm Hxs; try discriminate.
  - now exists m.
  - simpl in Hxs. injection Hxs as Hx Hxs. simpl.
    rewrite (py_gt_numbers _ _ _ _ Hx Hm). simpl.
    apply IH; [|assumption].
    destruct (Z.ltb_spec n k).
    + now rewrite Z.max_r by lia.
    + now rewrite Z.max_l by lia.
Qed.

Lemma max_loop_not_number (xs : list value) :
  forall m, is_number m = false ->
    fold_left max_step xs (Ok m) = Raise TypeError \/
    exists m', fold_left max_step xs (Ok m) = Ok m' /\ is_number m' = false.
Proof.
  induction xs as [|x xs IH]; intros m Hm; simpl.
  - right. now exists m.
  - destruct (py_gt x m) as [gt|e] eqn:Hgt; simpl.
    + apply IH. destruct gt; [|assumption].
      destruct (is_number x) eqn:Hx; [|reflexivity].
      rewrite py_gt_mixed in Hgt by congruence. discriminate.
    + left. rewrite (py_gt_raises _ _ _ Hgt). apply max_loop_raised.
Qed.

Lemma max_loop_meets_other (xs : list value) :
  forall m, is_number m = true ->
    forallb is_number xs = false ->
    fold_left max_step xs (Ok m) = Raise TypeError.
Proof.
  induction xs as [|x xs IH]; intros m Hm Hxs; simpl in *; [discriminate|].
  destruct (is_number x) eqn:Hx; simpl in Hxs.
  - unfold is_number in Hm, Hx.
    destruct (as_number m) as [n|] eqn:En; [|discriminate].
    destruct (as_number x) as [k|] eqn:Ek; [|discriminate].
    rewrite (py_gt_numbers _ _ _ _ Ek En). simpl.
    apply IH; [|assumption]. unfold is_number.
    destruct (Z.ltb n k); now rewrite ?Ek, ?En.
  - rewrite py_gt_mixed by congruence. apply max_loop_raised.
Qed.

Lemma py_max_not_numbers (xs : list value) :
  xs <> [] -> forallb is_number xs = false ->
  rbind (py_max xs) py_add_one = Raise TypeError.
Proof.
  destruct xs as [|x xs]; [easy|]. intros _ H. simpl in H.
  unfold py_max. fold max_step.
  destruct (is_number x) eqn:Hx; simpl in H.
  - now rewrite max_loop_meets_other.
  - destruct (max_loop_not_number xs x Hx) as [->|(m' & -> & Hm')];
      [reflexivity|].
    simpl. unfold py_add_one. unfold is_number in Hm'.
    now destruct (as_number m').
Qed.

Lemma py_max_numbers (x : value) (xs : list value) (n : Z) (ns : list Z) :
  map as_number (x :: xs) = map Some (n :: ns) ->
  rbind (py_max (x :: xs)) py_add_one = Ok (VInt (max_of n ns + 1)).
Proof.
  intros H. simpl in H. injection H as Hx Hxs.
  unfold py_max. fold max_step.
  destruct (max_loop_numbers xs x n ns Hx Hxs) as (m' & -> & Hm').
  simpl. unfold py_add_one. now rewrite Hm'.
Qed.

Lemma numbers_of_ids (tasks : list Task.t) :
  forallb (fun t => is_number (Task.id t)) tasks = true ->
  exists ns, map as_number (map Task.id tasks) = map Some ns.
Proof.
  induction tasks as [|t tasks IH]; simpl; [now exists []|].
  intros [Ht H]%andb_true_iff. destruct (IH H) as [ns Hns].
  unfold is_number in Ht. destruct (as_number (Task.id t)) as [n|] eqn:E;
    [|discriminate].
  exists (n :: ns). simpl. now rewrite Hns.
Qed.

Lemma forallb_over_map {A B} (f : A -> B) (p : B -> bool) (l : list A) :
  forallb p (map f l) = forallb (fun x => p (f x)) l.
Proof. induction l as [|x l IH]; simpl; [reflexivity|now rewrite IH]. Qed.

Lemma get_new_task_id_not_numbers (tasks : list Task.t) :
  forallb (fun t => is_number (Task.id t)) tasks = false ->
  get_new_task_id tasks = Raise TypeError.
Proof.
  intros H. destruct tasks as [|t tasks]; [discriminate|].
  unfold get_new_task_id. apply py_max_not_numbers; [discriminate|].
  now rewrite forallb_over_map.
Qed.

(** X7: on a non-empty collection every id of which is an [int] or a
    [bool], [get_new_task_id] returns the integer one above the largest
    of them ([True] counting as 1 and [False] as 0); on a collection
    some id of which is [None], a string, a list or an object it raises
    [TypeError]. *)
Theorem get_new_task_id_needs_numbers
    (tasks : list Task.t) (Hne : tasks <> []) :
  (forallb (fun t => is_number (Task.id t)) tasks = true ->
   exists m,
     (exists t, In t tasks /\ as_number (Task.id t) = Some m) /\
     (forall t, In t tasks ->
        exists n, as_number (Task.id t) = Some n /\ n <= m) /\
     get_new_task_id tasks = Ok (VInt (m + 1))) /\
  (existsb (fun t => no_number (Task.id t)) tasks = true ->
   get_new_task_id tasks = Raise TypeError).
Proof.
  split.
  - intros Hall.
    destruct (numbers_of_ids _ Hall) as [ns Hns].
    destruct tasks as [|t0 tasks]; [easy|].
    destruct ns as [|n ns]; [discriminate|].
    destruct (max_of_bounds n ns) as [Hin Hle].
    exists (max_of n ns). split; [|split].
    + apply (in_map Some) in Hin. rewrite <- Hns, map_map in Hin.
      apply in_map_iff in Hin as (t & Ht & Hin). now exists t.
    + intros t Ht. apply (in_map (fun t => as_number (Task.id t))) in Ht.
      rewrite <- map_map, Hns in Ht.
      apply in_map_iff in Ht as (k & Hk & Hin'). exists k.
      split; [easy|now apply Hle].
    + unfold get_new_task_id. now apply py_max_numbers.
  - intros (t & Ht & Hno)%existsb_exists.
    apply get_new_task_id_not_numbers. apply not_true_is_false.
    intros Hall. rewrite forallb_forall in Hall. specialize (Hall t Ht).
    unfold is_number in Hall. now destruct (Task.id t).
Qed.

Lemma get_new_task_id_needs_numbers_witness :
  get_new_task_id
    [Task.mk (VInt 0) (VStr "a") (VStr "") (VStr "todo");
     Task.mk VNone (VStr "b") (VStr "") (VStr "todo")]
  = Raise TypeError.
Proof.
  refine (proj2 (get_new_task_id_needs_numbers
            [Task.mk (VInt 0) (VStr "a") (VStr "") (VStr "todo");
             Task.mk VNone (VStr "b") (VStr "") (VStr "todo")] _) eq_refl).
  discriminate.
Defined.

(** X8: when some task of the file has an id that is not a number (as a
    record without an [id] field has), [add_task] raises [TypeError] for
    every title and description, and the file stays as it was. *)
Theorem add_task_fails_on_id_that_is_no_number
    (st : store) (tasks : list Task.t) (title description : string)
    (Hload : outcome load_tasks st = Ok tasks)
    (Hbad : existsb (fun t => negb (is_number (Task.id t))) tasks = true) :
  add_task title description st = (Raise TypeError, st).
Proof.
  unfold add_task. rewrite (op_loaded _ _ _ Hload). unfold bind, lift.
  rewrite get_new_task_id_not_numbers; [reflexivity|].
  apply not_true_is_false. intros Hall.
  apply existsb_exists in Hbad as (t & Ht & Hneg).
  rewrite forallb_forall in Hall. rewrite (Hall t Ht) in Hneg.
  discriminate.
Qed.

Lemma add_task_fails_on_id_that_is_no_number_witness :
  add_task "a" "b" (Some (Json (VList [VDict [("title", VStr "x")]]))) =
  (Raise TypeError, Some (Json (VList [VDict [("title", VStr "x")]]))).
Proof.
  exact (add_task_fails_on_id_that_is_no_number
           (Some (Json (VList [VDict [("title", VStr "x")]])))
           [Task.mk VNone (VStr "x") VNone (VStr "todo")]
           "a" "b" eq_refl eq_refl).
Defined.

(** ** Adding and deleting on integer ids *)





Lemma filter_all {A} (p : A -> bool) (l : list A) :
  existsb p l = false -> List.filter (fun x => negb (p x)) l = l.
Proof.
  induction l as [|x l IH]; simpl; [reflexivity|].
  intros [-> H]%orb_false_iff. simpl. now rewrite IH.
Qed.






Lemma existsb_filter_out {A} (p : A -> bool) (l : list A) :
  existsb p (List.filter (fun x => negb (p x)) l) = false.
Proof.
  induction l as [|x l IH]; simpl; [reflexivity|].
  destruct (p x) eqn:E; simpl; [exact IH|]. now rewrite E.
Qed.

(** X11: after [delete_task] no task of the collection has the deleted
    id, whether or not one had it before and whether or not the save
    went through: deleting the same id again, updating it and marking it
    all return [False] and leave the file as the first delete left
    it. *)
Theorem delete_task_leaves_no_such_id
    (st : store) (tasks : list Task.t) (task_id : Z)
    (Hload : outcome load_tasks st = Ok tasks) :
  let st' := after (delete_task task_id) st in
  exists tasks',
    outcome load_tasks st' = Ok tasks' /\
    existsb (has_id task_id) tasks' = false /\
    delete_task task_id st' = (Ok false, st') /\
    (forall title description,
       update_task task_id title description st' = (Ok false, st')) /\
    (forall new_status,
       mark_task task_id new_status st' = (Ok false, st')).
Proof.
  cbv zeta.
  assert (H : forall st' tasks',
            outcome load_tasks st' = Ok tasks' ->
            existsb (has_id task_id) tasks' = false ->
            delete_task task_id st' = (Ok false, st') /\
            (forall title description,
               update_task task_id title description st' = (Ok false, st')) /\
            (forall new_status,
               mark_task task_id new_status st' = (Ok false, st'))).
  { clear. intros st tasks Hload Hnone. split; [|split].
    - rewrite (delete_task_run _ _ task_id Hload). cbv zeta.
      now rewrite filter_length_existsb, Hnone.
    - intros. rewrite (update_task_run _ _ task_id _ _ Hload).
      now rewrite change_first_missing.
    - intros. rewrite (mark_task_run _ _ task_id _ Hload).
      now rewrite change_first_missing. }
  unfold after. rewrite (delete_task_run _ _ task_id Hload). cbv zeta.
  rewrite filter_length_existsb.
  destruct (existsb (has_id task_id) tasks) eqn:E; simpl negb; cbv iota.
  - unfold saving. destruct (dumpable _); cbn [snd].
    + eexists. split; [apply load_tasks_saved|].
      split; [apply existsb_filter_out|].
      apply (H _ _ (load_tasks_saved _)), existsb_filter_out.
    + exists []. split; [reflexivity|]. split; [reflexivity|].
      now apply (H _ []).
  - cbn [snd]. exists tasks. split; [exact Hload|]. split; [exact E|].
    now apply (H st tasks).
Qed.

Lemma delete_task_leaves_no_such_id_witness :
  delete_task 1
    (after (delete_task 1)
       (saved [Task.mk (VInt 1) (VStr "a") (VStr "") (VStr "todo");
               Task.mk (VBool true) (VStr "b") (VStr "") (VStr "todo");
               Task.mk (VInt 2) (VStr "c") (VStr "") (VStr "todo")]))
  = (Ok false, saved [Task.mk (VInt 2) (VStr "c") (VStr "") (VStr "todo")]).
Proof.
  destruct (delete_task_leaves_no_such_id
              (saved [Task.mk (VInt 1) (VStr "a") (VStr "") (VStr "todo");
                      Task.mk (VBool true) (VStr "b") (VStr "")
                        (VStr "todo");
                      Task.mk (VInt 2) (VStr "c") (VStr "") (VStr "todo")])
              [Task.mk (VInt 1) (VStr "a") (VStr "") (VStr "todo");
               Task.mk (VBool true) (VStr "b") (VStr "") (VStr "todo");
               Task.mk (VInt 2) (VStr "c") (VStr "") (VStr "todo")]
              1 eq_refl) as (tasks' & _ & _ & H & _).
  exact H.
Defined.

(** ** The next id after a delete *)






(** ** Runs of adds *)






(** ** Two changes in a row *)

Lemma update_task_raises st task_id title description e :
  outcome load_tasks st = Raise e ->
  update_task task_id title description st = (Raise e, st).
Proof. intros H. unfold update_task. now apply op_raises. Qed.

Lemma existsb_has_id_same_ids (task_id : Z) (l1 : list Task.t) :
  forall l2, map Task.id l1 = map Task.id l2 ->
  existsb (has_id task_id) l1 = existsb (has_id task_id) l2.
Proof.
  induction l1 as [|t1 l1 IH]; intros [|t2 l2] H; try discriminate;
    [reflexivity|].
  simpl in H. injection H as Ht H. simpl. unfold has_id at 1 3.
  now rewrite Ht, (IH l2 H).
Qed.

Lemma change_first_ext (c c' : Task.t -> Task.t) (task_id : Z) tasks :
  (forall t, c t = c' t) ->
  change_first c task_id tasks = change_first c' task_id tasks.
Proof.
  intros H. induction tasks as [|t tasks IH]; simpl; [reflexivity|].
  now rewrite H, IH.
Qed.

Section TwoChanges.

Variables c1 c2 : Task.t -> Task.t.
Variables i j : Z.
Hypothesis c1_id : forall t, Task.id (c1 t) = Task.id t.
Hypothesis c2_id : forall t, Task.id (c2 t) = Task.id t.

Lemma change_first_flag_after tasks :
  snd (change_first c2 j (fst (change_first c1 i tasks))) =
  snd (change_first c2 j tasks).
Proof.
  rewrite !change_first_flag. apply existsb_has_id_same_ids.
  now apply change_first_ids.
Qed.

Lemma change_first_commute tasks :
  (forall t, c2 (c1 t) = c1 (c2 t)) ->
  fst (change_first c2 j (fst (change_first c1 i tasks))) =
  fst (change_first c1 i (fst (change_first c2 j tasks))).
Proof.
  intros Hcomm. induction tasks as [|t tasks IH]; simpl; [reflexivity|].
  destruct (py_eq (Task.id t) (VInt i)) eqn:Ei;
    destruct (py_eq (Task.id t) (VInt j)) eqn:Ej; simpl.
  - now rewrite c1_id, c2_id, Ei, Ej, Hcomm.
  - rewrite c1_id, Ej.
    destruct (change_first c2 j tasks) as [l u]; simpl. now rewrite Ei.
  - rewrite c2_id, Ei.
    destruct (change_first c1 i tasks) as [l u]; simpl. now rewrite Ej.
  - destruct (change_first c1 i tasks) as [l1 u1];
      destruct (change_first c2 j tasks) as [l2 u2]; simpl in *.
    rewrite Ei, Ej.
    destruct (change_first c2 j l1) as [l12 u12];
      destruct (change_first c1 i l2) as [l21 u21]; simpl in *.
    now rewrite IH.
Qed.

Lemma change_first_overwrite tasks :
  i = j -> (forall t, c2 (c1 t) = c2 t) ->
  change_first c2 j (fst (change_first c1 i tasks)) =
  change_first c2 j tasks.
Proof.
  intros <- Hover.
  destruct (existsb (has_id i) tasks) eqn:E.
  - destruct (first_match _ _ E) as (b & t & r & -> & Hb & Ht).
    rewrite !change_first_found by assumption. simpl.
    rewrite change_first_found; [now rewrite Hover|assumption|].
    unfold has_id in *. now rewrite c1_id.
  - now rewrite (change_first_missing c1) by assumption.
Qed.

(** Two operations that load, change the first task with an id and save
    when they found one. *)
Variables m1 m2 : M bool.
Hypothesis m1_run : forall st tasks,
  outcome load_tasks st = Ok tasks ->
  m1 st = let '(tasks', updated) := change_first c1 i tasks in
          if updated then saving tasks' true else (Ok false, st).
Hypothesis m2_run : forall st tasks,
  outcome load_tasks st = Ok tasks ->
  m2 st = let '(tasks', updated) := change_first c2 j tasks in
          if updated then saving tasks' true else (Ok false, st).
Hypothesis m1_raises : forall st e,
  outcome load_tasks st = Raise e -> m1 st = (Raise e, st).
Hypothesis m2_raises : forall st e,
  outcome load_tasks st = Raise e -> m2 st = (Raise e, st).

Lemma m1_after (st : store) tasks :
  outcome load_tasks st = Ok tasks ->
  dumpable (fst (change_first c1 i tasks)) = true ->
  after m1 st = if existsb (has_id i) tasks
                then saved (fst (change_first c1 i tasks)) else st.
Proof.
  intros Hload Hdump. unfold after. rewrite (m1_run _ _ Hload).
  rewrite <- (change_first_flag c1).
  destruct (change_first c1 i tasks) as [l []]; [|reflexivity].
  simpl in Hdump. now rewrite saving_saved.
Qed.

Lemma m2_after (st : store) tasks :
  outcome load_tasks st = Ok tasks ->
  dumpable (fst (change_first c2 j tasks)) = true ->
  after m2 st = if existsb (has_id j) tasks
                then saved (fst (change_first c2 j tasks)) else st.
Proof.
  intros Hload Hdump. unfold after. rewrite (m2_run _ _ Hload).
  rewrite <- (change_first_flag c2).
  destruct (change_first c2 j tasks) as [l []]; [|reflexivity].
  simpl in Hdump. now rewrite saving_saved.
Qed.

Lemma changes_overwrite (st : store) (b : bool) :
  i = j -> (forall t, c2 (c1 t) = c2 t) ->
  outcome m1 st = Ok b ->
  m2 (after m1 st) = m2 st.
Proof.
  intros Hij Hover Hret. unfold outcome, after in *.
  destruct (outcome load_tasks st) as [tasks|e] eqn:Hload.
  - rewrite (m1_run _ _ Hload) in *.
    pose proof (change_first_overwrite tasks Hij Hover) as Hsame.
    pose proof (change_first_flag c1 i tasks) as Hflag1.
    pose proof (change_first_flag c2 j tasks) as Hflag2.
    rewrite <- Hij in Hflag2 at 2. rewrite <- Hflag1 in Hflag2.
    destruct (change_first c1 i tasks) as [l1 [|]]; [|reflexivity].
    apply saving_returned in Hret as (_ & _ & ->).
    rewrite (m2_run _ _ (load_tasks_saved _)), (m2_run _ _ Hload).
    simpl in Hsame. rewrite Hsame.
    destruct (change_first c2 j tasks) as [l2 u2]; simpl in *.
    now subst u2.
  - rewrite (m1_raises _ _ Hload) in Hret. discriminate.
Qed.

Hypothesis c1_encodable :
  forall t, encodable_task t = true -> encodable_task (c1 t) = true.
Hypothesis c2_encodable :
  forall t, encodable_task t = true -> encodable_task (c2 t) = true.

Lemma changes_commute (st : store) tasks :
  (forall t, c2 (c1 t) = c1 (c2 t)) ->
  outcome load_tasks st = Ok tasks ->
  dumpable tasks = true ->
  after m2 (after m1 st) = after m1 (after m2 st).
Proof.
  intros Hcomm Hload Hdump.
  pose proof (dumpable_change_first c1 i tasks c1_encodable Hdump) as Hd1.
  pose proof (dumpable_change_first c2 j tasks c2_encodable Hdump) as Hd2.
  pose proof (dumpable_change_first c2 j _ c2_encodable Hd1) as Hd12.
  pose proof (dumpable_change_first c1 i _ c1_encodable Hd2) as Hd21.
  rewrite (m1_after _ _ Hload Hd1), (m2_after _ _ Hload Hd2).
  assert (H12 : existsb (has_id j) (fst (change_first c1 i tasks)) =
                existsb (has_id j) tasks)
    by (apply existsb_has_id_same_ids; now apply change_first_ids).
  assert (H21 : existsb (has_id i) (fst (change_first c2 j tasks)) =
                existsb (has_id i) tasks)
    by (apply existsb_has_id_same_ids; now apply change_first_ids).
  destruct (existsb (has_id i) tasks) eqn:E1;
    destruct (existsb (has_id j) tasks) eqn:E2.
  - rewrite (m2_after _ _ (load_tasks_saved _) Hd12),
      (m1_after _ _ (load_tasks_saved _) Hd21), H12, H21.
    now rewrite change_first_commute.
  - rewrite (m2_after _ _ (load_tasks_saved _) Hd12), H12.
    now rewrite (m1_after _ _ Hload Hd1), E1.
  - rewrite (m1_after _ _ (load_tasks_saved _) Hd21), H21.
    now rewrite (m2_after _ _ Hload Hd2), E2.
  - now rewrite (m2_after _ _ Hload Hd2), (m1_after _ _ Hload Hd1), E1, E2.
Qed.

End TwoChanges.

(** X14: of two [mark_task] calls on the same id, the first of which
    returned, the second decides: the file and the result are those of
    the second call alone. *)
Theorem mark_task_last_status_wins
    (st : store) (task_id : Z) (s1 s2 : string) (b : bool)
    (Hret : outcome (mark_task task_id s1) st = Ok b) :
  mark_task task_id s2 (after (mark_task task_id s1) st) =
  mark_task task_id s2 st.
Proof.
  apply (changes_overwrite (restatused s1) (restatused s2) task_id task_id
           (fun _ => eq_refl)
           (mark_task task_id s1) (mark_task task_id s2)) with (b := b);
    try reflexivity; try assumption; intros.
  - now apply mark_task_run.
  - now apply mark_task_run.
  - now apply mark_task_raises.
Qed.

Lemma mark_task_last_status_wins_witness :
  mark_task 1 "done"
    (after (mark_task 1 "in_progress")
       (saved [Task.mk (VInt 1) (VStr "a") (VStr "") (VStr "todo")])) =
  (Ok true, saved [Task.mk (VInt 1) (VStr "a") (VStr "") (VStr "done")]).
Proof.
  exact (mark_task_last_status_wins
           (saved [Task.mk (VInt 1) (VStr "a") (VStr "") (VStr "todo")])
           1 "in_progress" "done" true eq_refl).
Defined.

(** X15: of two [update_task] calls on the same id, the first of which
    returned, the second decides: the file and the result are those of
    the second call alone; in particular repeating an update that
    returned changes nothing more. *)
Theorem update_task_last_text_wins
    (st : store) (task_id : Z)
    (title1 description1 title2 description2 : string) (b : bool)
    (Hret : outcome (update_task task_id title1 description1) st = Ok b) :
  update_task task_id title2 description2
    (after (update_task task_id title1 description1) st) =
  update_task task_id title2 description2 st.
Proof.
  apply (changes_overwrite (retitled title1 description1)
           (retitled title2 description2) task_id task_id
           (fun _ => eq_refl)
           (update_task task_id title1 description1)
           (update_task task_id title2 description2)) with (b := b);
    try reflexivity; try assumption; intros.
  - now apply update_task_run.
  - now apply update_task_run.
  - now apply update_task_raises.
Qed.

Lemma update_task_last_text_wins_witness :
  update_task 1 "c" "d"
    (after (update_task 1 "a" "b")
       (saved [Task.mk (VInt 1) (VStr "x") (VStr "") (VStr "todo")])) =
  (Ok true, saved [Task.mk (VInt 1) (VStr "c") (VStr "d") (VStr "todo")]).
Proof.
  exact (update_task_last_text_wins
           (saved [Task.mk (VInt 1) (VStr "x") (VStr "") (VStr "todo")])
           1 "a" "b" "c" "d" true eq_refl).
Defined.

(** X16: on a collection whose strings can be encoded, and for a title,
    a description and a status that can be encoded, [update_task] and
    [mark_task] commute, for any two ids: the file after an update
    followed by a status change is the file after the status change
    followed by the update. *)
Theorem update_task_and_mark_task_commute
    (st : store) (tasks : list Task.t) (i j : Z)
    (title description new_status : string)
    (Hload : outcome load_tasks st = Ok tasks)
    (Hdump : dumpable tasks = true)
    (Htitle : encodable title = true)
    (Hdescription : encodable description = true)
    (Hstatus : encodable new_status = true) :
  after (mark_task j new_status)
    (after (update_task i title description) st) =
  after (update_task i title description)
    (after (mark_task j new_status) st).
Proof.
  apply (changes_commute (retitled title description)
           (restatused new_status) i j
           (fun _ => eq_refl) (fun _ => eq_refl)
           (update_task i title description) (mark_task j new_status))
    with (tasks := tasks);
    try reflexivity; try assumption; intros.
  - now apply update_task_run.
  - now apply mark_task_run.
  - now apply encodable_retitled.
  - now apply encodable_restatused.
Qed.

Lemma update_task_and_mark_task_commute_witness :
  after (mark_task 2 "done")
    (after (update_task 1 "x" "y")
       (saved [Task.mk (VInt 1) (VStr "a") (VStr "") (VStr "todo");
               Task.mk (VInt 2) (VStr "b") (VStr "") (VStr "todo")])) =
  after (update_task 1 "x" "y")
    (after (mark_task 2 "done")
       (saved [Task.mk (VInt 1) (VStr "a") (VStr "") (VStr "todo");
               Task.mk (VInt 2) (VStr "b") (VStr "") (VStr "todo")])).
Proof.
  exact (update_task_and_mark_task_commute
           (saved [Task.mk (VInt 1) (VStr "a") (VStr "") (VStr "todo");
                   Task.mk (VInt 2) (VStr "b") (VStr "") (VStr "todo")])
           [Task.mk (VInt 1) (VStr "a") (VStr "") (VStr "todo");
            Task.mk (VInt 2) (VStr "b") (VStr "") (VStr "todo")]
           1 2 "x" "y" "done" eq_refl eq_refl eq_refl eq_refl eq_refl).
Defined.

(** ** Deleting next to other changes *)

Lemma has_id_unique (i j : Z) (t : Task.t) :
  has_id i t = true -> has_id j t = true -> i = j.
Proof.
  unfold has_id. destruct (Task.id t); simpl; try discriminate.
  - intros ->%Z.eqb_eq ->%Z.eqb_eq. reflexivity.
  - intros <-%Z.eqb_eq <-%Z.eqb_eq. reflexivity.
Qed.

Lemma existsb_filter_false {A} (p q : A -> bool) (l : list A) :
  existsb p l = false -> existsb p (List.filter q l) = false.
Proof.
  induction l as [|x l IH]; simpl; [reflexivity|].
  intros [Hx H]%orb_false_iff. destruct (q x); simpl; [|now apply IH].
  now rewrite Hx, IH.
Qed.

Lemma delete_task_after (st : store) tasks (i : Z) :
  outcome load_tasks st = Ok tasks ->
  dumpable tasks = true ->
  after (delete_task i) st =
  if existsb (has_id i) tasks
  then saved (List.filter (fun t => negb (has_id i t)) tasks) else st.
Proof.
  intros Hload Hdump. unfold after. rewrite (delete_task_run _ _ i Hload).
  cbv zeta. rewrite filter_length_existsb.
  destruct (existsb (has_id i) tasks); [|reflexivity]. simpl.
  now rewrite saving_saved by now apply dumpable_filter.
Qed.

Lemma delete_task_raises st task_id e :
  outcome load_tasks st = Raise e ->
  delete_task task_id st = (Raise e, st).
Proof. intros H. unfold delete_task. now apply op_raises. Qed.

Lemma filter_commute {A} (p q : A -> bool) (l : list A) :
  List.filter p (List.filter q l) = List.filter q (List.filter p l).
Proof.
  induction l as [|x l IH]; simpl; [reflexivity|].
  destruct (p x) eqn:Hp; destruct (q x) eqn:Hq; simpl;
    rewrite ?Hp, ?Hq, IH; reflexivity.
Qed.

Section DeleteAndChange.

Variable c : Task.t -> Task.t.
Variables i j : Z.
Hypothesis c_id : forall t, Task.id (c t) = Task.id t.

Lemma has_id_change (k : Z) (t : Task.t) : has_id k (c t) = has_id k t.
Proof. unfold has_id. now rewrite c_id. Qed.

Lemma filter_change_first tasks :
  fst (change_first c j (List.filter (fun t => negb (has_id i t)) tasks)) =
  List.filter (fun t => negb (has_id i t)) (fst (change_first c j tasks)).
Proof.
  induction tasks as [|t tasks IH]; simpl; [reflexivity|].
  fold (has_id j t).
  destruct (has_id i t) eqn:Ei; destruct (has_id j t) eqn:Ej; simpl.
  - rewrite (has_id_unique _ _ _ Ei Ej).
    rewrite has_id_change, Ej. simpl.
    now rewrite change_first_missing by apply existsb_filter_out.
  - destruct (change_first c j tasks) as [l u]; simpl in *.
    now rewrite Ei.
  - fold (has_id j t). rewrite Ej. simpl.
    now rewrite has_id_change, Ei.
  - fold (has_id j t). rewrite Ej.
    destruct (change_first c j tasks) as [l u];
      destruct (change_first c j (List.filter _ tasks)) as [l' u'];
      simpl in *.
    now rewrite Ei, IH.
Qed.

Variable m : M bool.
Hypothesis m_run : forall st tasks,
  outcome load_tasks st = Ok tasks ->
  m st = let '(tasks', updated) := change_first c j tasks in
         if updated then saving tasks' true else (Ok false, st).
Hypothesis c_encodable :
  forall t, encodable_task t = true -> encodable_task (c t) = true.

Lemma delete_commutes_with_change (st : store) tasks :
  outcome load_tasks st = Ok tasks ->
  dumpable tasks = true ->
  after (delete_task i) (after m st) = after m (after (delete_task i) st).
Proof.
  intros Hload Hdump.
  pose proof (dumpable_change_first c j tasks c_encodable Hdump) as Hd.
  pose proof (dumpable_filter (fun t => negb (has_id i t)) _ Hdump) as Hf.
  pose proof (dumpable_change_first c j _ c_encodable Hf) as Hfd.
  rewrite (m1_after c j m m_run _ _ Hload Hd),
    (delete_task_after _ _ i Hload Hdump).
  assert (Hi : existsb (has_id i) (fst (change_first c j tasks)) =
               existsb (has_id i) tasks)
    by (apply existsb_has_id_same_ids; now apply change_first_ids).
  destruct (existsb (has_id i) tasks) eqn:Ei;
    destruct (existsb (has_id j) tasks) eqn:Ej.
  - rewrite (delete_task_after _ _ i (load_tasks_saved _) Hd), Hi.
    rewrite (m1_after c j m m_run _ _ (load_tasks_saved _) Hfd).
    rewrite <- filter_change_first.
    destruct (existsb (has_id j) (List.filter _ tasks)) eqn:E;
      [reflexivity|].
    now rewrite change_first_missing.
  - rewrite (m1_after c j m m_run _ _ (load_tasks_saved _) Hfd).
    rewrite (existsb_filter_false _ _ _ Ej).
    now rewrite (delete_task_after _ _ i Hload Hdump), Ei.
  - rewrite (delete_task_after _ _ i (load_tasks_saved _) Hd), Hi.
    now rewrite (m1_after c j m m_run _ _ Hload Hd), Ej.
  - rewrite (delete_task_after _ _ i Hload Hdump), Ei.
    now rewrite (m1_after c j m m_run _ _ Hload Hd), Ej.
Qed.

End DeleteAndChange.

(** X17: on a collection whose strings can be encoded, and for a title,
    a description and a status that can be encoded, [delete_task]
    commutes with [update_task], with [mark_task] and with another
    [delete_task], for any two ids: either order leaves the same
    file. *)
Theorem delete_task_commutes
    (st : store) (tasks : list Task.t) (i j : Z)
    (title description new_status : string)
    (Hload : outcome load_tasks st = Ok tasks)
    (Hdump : dumpable tasks = true)
    (Htitle : encodable title = true)
    (Hdescription : encodable description = true)
    (Hstatus : encodable new_status = true) :
  after (delete_task i) (after (update_task j title description) st) =
    after (update_task j title description) (after (delete_task i) st) /\
  after (delete_task i) (after (mark_task j new_status) st) =
    after (mark_task j new_status) (after (delete_task i) st) /\
  after (delete_task i) (after (delete_task j) st) =
    after (delete_task j) (after (delete_task i) st).
Proof.
  split; [|split].
  - apply (delete_commutes_with_change (retitled title description) i j
             (fun _ => eq_refl)) with (tasks := tasks);
      try assumption; intros.
    + now apply update_task_run.
    + now apply encodable_retitled.
  - apply (delete_commutes_with_change (restatused new_status) i j
             (fun _ => eq_refl)) with (tasks := tasks);
      try assumption; intros.
    + now apply mark_task_run.
    + now apply encodable_restatused.
  - pose proof (dumpable_filter (fun t => negb (has_id i t)) _ Hdump) as Hfi.
    pose proof (dumpable_filter (fun t => negb (has_id j t)) _ Hdump) as Hfj.
    rewrite (delete_task_after _ _ i Hload Hdump),
      (delete_task_after _ _ j Hload Hdump).
    destruct (existsb (has_id i) tasks) eqn:Ei;
      destruct (existsb (has_id j) tasks) eqn:Ej.
    + rewrite (delete_task_after _ _ i (load_tasks_saved _) Hfj),
        (delete_task_after _ _ j (load_tasks_saved _) Hfi).
      rewrite filter_commute.
      destruct (existsb (has_id i) (List.filter _ tasks)) eqn:E1;
        destruct (existsb (has_id j) (List.filter _ tasks)) eqn:E2;
        try reflexivity.
      * now rewrite (filter_all _ _ E2).
      * now rewrite <- filter_commute, (filter_all _ _ E1).
      * rewrite <- (filter_all _ _ E1) at 1.
        now rewrite filter_commute, (filter_all _ _ E2).
    + rewrite (delete_task_after _ _ j (load_tasks_saved _) Hfi).
      rewrite (existsb_filter_false _ _ _ Ej).
      now rewrite (delete_task_after _ _ i Hload Hdump), Ei.
    + rewrite (delete_task_after _ _ i (load_tasks_saved _) Hfj).
      rewrite (existsb_filter_false _ _ _ Ei).
      now rewrite (delete_task_after _ _ j Hload Hdump), Ej.
    + now rewrite (delete_task_after _ _ i Hload Hdump),
        (delete_task_after _ _ j Hload Hdump), Ei, Ej.
Qed.

Lemma delete_task_commutes_witness :
  after (delete_task 1)
    (after (delete_task 2)
       (saved [Task.mk (VInt 1) (VStr "a") (VStr "") (VStr "todo");
               Task.mk (VInt 2) (VStr "b") (VStr "") (VStr "todo");
               Task.mk (VInt 3) (VStr "c") (VStr "") (VStr "todo")])) =
  after (delete_task 2)
    (after (delete_task 1)
       (saved [Task.mk (VInt 1) (VStr "a") (VStr "") (VStr "todo");
               Task.mk (VInt 2) (VStr "b") (VStr "") (VStr "todo");
               Task.mk (VInt 3) (VStr "c") (VStr "") (VStr "todo")])).
Proof.
  exact (proj2 (proj2 (delete_task_commutes
           (saved [Task.mk (VInt 1) (VStr "a") (VStr "") (VStr "todo");
                   Task.mk (VInt 2) (VStr "b") (VStr "") (VStr "todo");
                   Task.mk (VInt 3) (VStr "c") (VStr "") (VStr "todo")])
           [Task.mk (VInt 1) (VStr "a") (VStr "") (VStr "todo");
            Task.mk (VInt 2) (VStr "b") (VStr "") (VStr "todo");
            Task.mk (VInt 3) (VStr "c") (VStr "") (VStr "todo")]
           1 2 "" "" "" eq_refl eq_refl eq_refl eq_refl eq_refl))).
Defined.

(** ** A task whose id is not a number *)

Lemma has_id_not_number (k : Z) (t : Task.t) :
  is_number (Task.id t) = false -> has_id k t = false.
Proof. unfold has_id. now destruct (Task.id t). Qed.

Lemma change_first_keeps (c : Task.t -> Task.t) (i : Z) (t : Task.t) tasks :
  has_id i t = false -> In t tasks -> In t (fst (change_first c i tasks)).
Proof.
  intros Ht. induction tasks as [|x tasks IH]; simpl; [easy|].
  fold (has_id i x). intros [->|Hin].
  - rewrite Ht. destruct (change_first c i tasks); simpl. now left.
  - destruct (has_id i x); simpl; [now right|].
    destruct (change_first c i tasks); simpl in *. right. now apply IH.
Qed.

Lemma change_first_length (c : Task.t -> Task.t) (i : Z) tasks :
  length (fst (change_first c i tasks)) = length tasks.
Proof.
  induction tasks as [|x tasks IH]; simpl; [reflexivity|].
  destruct (py_eq _ _); simpl; [reflexivity|].
  destruct (change_first c i tasks); simpl in *. now rewrite IH.
Qed.

(** X18: a task whose id is not a number (a record without [id], or
    with a string or [null] there) cannot be reached: on a collection
    whose strings can be encoded, after any sequence of adds, updates,
    deletes and status changes whose strings can be encoded it is still
    in the collection, unchanged, and the collection has not grown,
    every add having failed. *)
Theorem task_with_id_that_is_no_number_stays
    (st : store) (tasks : list Task.t) (t : Task.t) (ops : list op)
    (Hload : outcome load_tasks st = Ok tasks)
    (Hdump : dumpable tasks = true)
    (Hops : forallb encodable_op ops = true)
    (Hin : In t tasks)
    (Hid : is_number (Task.id t) = false) :
  exists tasks',
    outcome load_tasks (run ops st) = Ok tasks' /\
    In t tasks' /\
    (length tasks' <= length tasks)%nat.
Proof.
  revert st tasks Hload Hdump Hin. unfold run.
  induction ops as [|o ops IH]; intros st tasks Hload Hdump Hin; simpl.
  - exists tasks. auto.
  - simpl in Hops. apply andb_true_iff in Hops as [Ho Hops].
    assert (Hstep : exists tasks1,
              outcome load_tasks (step o st) = Ok tasks1 /\
              dumpable tasks1 = true /\ In t tasks1 /\
              (length tasks1 <= length tasks)%nat).
    { destruct o as [ti de|i ti de|i|i s]; simpl in *.
      - exists tasks. unfold after, add_task.
        rewrite (op_loaded _ _ _ Hload). unfold bind, lift.
        rewrite get_new_task_id_not_numbers; [auto|].
        apply not_true_is_false. intros Hall.
        rewrite forallb_forall in Hall. now rewrite (Hall t Hin) in Hid.
      - apply andb_true_iff in Ho as [Hti Hde].
        pose proof (dumpable_change_first (retitled ti de) i tasks
                      (fun t => encodable_retitled ti de t Hti Hde) Hdump)
          as Hd.
        rewrite (m1_after (retitled ti de) i (update_task i ti de)
                   (fun st tasks H => update_task_run st tasks i ti de H)
                   _ _ Hload Hd).
        destruct (existsb (has_id i) tasks); [|exists tasks; auto].
        eexists. split; [apply load_tasks_saved|].
        split; [exact Hd|]. split.
        + apply change_first_keeps; [now apply has_id_not_number|easy].
        + now rewrite change_first_length.
      - rewrite (delete_task_after _ _ i Hload Hdump).
        destruct (existsb (has_id i) tasks); [|exists tasks; auto].
        eexists. split; [apply load_tasks_saved|].
        split; [now apply dumpable_filter|]. split.
        + apply filter_In. split; [easy|].
          now rewrite has_id_not_number.
        + apply List.filter_length_le.
      - pose proof (dumpable_change_first (restatused s) i tasks
                      (fun t => encodable_restatused s t Ho) Hdump) as Hd.
        rewrite (m1_after (restatused s) i (mark_task i s)
                   (fun st tasks H => mark_task_run st tasks i s H)
                   _ _ Hload Hd).
        destruct (existsb (has_id i) tasks); [|exists tasks; auto].
        eexists. split; [apply load_tasks_saved|].
        split; [exact Hd|]. split.
        + apply change_first_keeps; [now apply has_id_not_number|easy].
        + now rewrite change_first_length. }
    destruct Hstep as (tasks1 & Hload1 & Hdump1 & Hin1 & Hlen1).
    destruct (IH Hops _ _ Hload1 Hdump1 Hin1) as (tasks' & H1 & H2 & H3).
    exists tasks'. split; [exact H1|]. split; [exact H2|lia].
Qed.

Lemma task_with_id_that_is_no_number_stays_witness :
  exists tasks',
    outcome load_tasks
      (run [Add "a" ""; Delete 0; SetStatus 1 "done"; Update 1 "b" ""]
         (Some (Json (VList [VDict [("title", VStr "x")];
                             VDict [("id", VInt 1)]]))))
    = Ok tasks' /\
    In (Task.mk VNone (VStr "x") VNone (VStr "todo")) tasks'.
Proof.
  destruct (task_with_id_that_is_no_number_stays
              (Some (Json (VList [VDict [("title", VStr "x")];
                                  VDict [("id", VInt 1)]])))
              [Task.mk VNone (VStr "x") VNone (VStr "todo");
               Task.mk (VInt 1) VNone VNone (VStr "todo")]
              (Task.mk VNone (VStr "x") VNone (VStr "todo"))
              [Add "a" ""; Delete 0; SetStatus 1 "done"; Update 1 "b" ""]
              eq_refl eq_refl eq_refl (or_introl eq_refl) eq_refl)
    as (tasks' & H1 & H2 & _).
  exists tasks'. split; [exact H1|exact H2].
Defined.

(** ** The interactive mode *)

Lemma run_cons (o : op) (ops : list op) (st : store) :
  run (o :: ops) st = run ops (step o st).
Proof. reflexivity. Qed.

Section InteractiveSession.

Variable strip : string -> string.
Variable py_int : string -> option Z.

Lemma interactive_mode_is_run (n : nat) :
  forall inputs st, (length inputs <= n)%nat ->
  exists ops,
    snd (interactive_mode strip py_int inputs st) = run ops st /\
    Forall known_status ops.
Proof.
  induction n as [|n IH]; intros inputs st Hlen.
  { destruct inputs; [|simpl in Hlen; lia]. now exists []. }
  assert (Hskip : forall rest, (length rest <= n)%nat ->
            exists ops,
              snd (interactive_mode strip py_int rest st) = run ops st /\
              Forall known_status ops) by (intros; now apply IH).
  assert (Hop : forall (o : op) (r : result unit) rest st',
            known_status o -> st' = step o st -> (length rest <= n)%nat ->
            exists ops,
              snd (match r with
                   | Ok _ => interactive_mode strip py_int rest st'
                   | Raise e => (Failed e, st')
                   end) = run ops st /\
              Forall known_status ops).
  { intros o r rest st' Hknown -> Hrest. destruct r as [?|e].
    - destruct (IH rest (step o st) Hrest) as (ops & Hops & Hall).
      exists (o :: ops). split; [now rewrite run_cons|now constructor].
    - exists [o]. split; [reflexivity|now repeat constructor]. }
  destruct inputs as [|line inputs1]; [now exists []|].
  simpl in Hlen. simpl.
  destruct (String.eqb (strip line) "6"); [now exists []|].
  destruct (String.eqb (strip line) "1").
  { destruct inputs1 as [|line1 [|line2 inputs']]; try (now exists []).
    simpl in Hlen.
    pose proof (Hop (Add (strip line1) (strip line2))) as H. simpl in H.
    unfold after in H.
    destruct (add_task (strip line1) (strip line2) st) as [r st'].
    destruct r as [a|e].
    - apply (H (Ok tt) inputs' st' I eq_refl). lia.
    - apply (H (Raise e) inputs' st' I eq_refl). lia. }
  destruct (String.eqb (strip line) "2").
  { destruct inputs1 as [|line1 inputs2]; [now exists []|].
    simpl in Hlen.
    destruct (py_int line1) as [task_id|]; [|apply Hskip; lia].
    destruct inputs2 as [|line2 [|line3 inputs']]; try (now exists []).
    simpl in Hlen.
    pose proof (Hop (Update task_id (strip line2) (strip line3))) as H.
    simpl in H. unfold after in H.
    destruct (update_task task_id (strip line2) (strip line3) st)
      as [r st'].
    destruct r as [a|e].
    - apply (H (Ok tt) inputs' st' I eq_refl). lia.
    - apply (H (Raise e) inputs' st' I eq_refl). lia. }
  destruct (String.eqb (strip line) "3").
  { destruct inputs1 as [|line1 inputs']; [now exists []|].
    simpl in Hlen.
    destruct (py_int line1) as [task_id|]; [|apply Hskip; lia].
    pose proof (Hop (Delete task_id)) as H. simpl in H. unfold after in H.
    destruct (delete_task task_id st) as [r st'].
    destruct r as [a|e].
    - apply (H (Ok tt) inputs' st' I eq_refl). lia.
    - apply (H (Raise e) inputs' st' I eq_refl). lia. }
  destruct (String.eqb (strip line) "4").
  { destruct inputs1 as [|line1 inputs2]; [now exists []|].
    simpl in Hlen.
    destruct (py_int line1) as [task_id|]; [|apply Hskip; lia].
    destruct inputs2 as [|line2 inputs']; [now exists []|].
    simpl in Hlen.
    destruct (interactive_status (strip line2)) as [new_status|] eqn:Es;
      [|apply Hskip; lia].
    assert (Hknown : known_status (SetStatus task_id new_status)).
    { simpl. unfold interactive_status in Es.
      repeat (destruct (String.eqb (strip line2) _);
              [injection Es as <-; simpl; tauto|]).
      discriminate. }
    pose proof (Hop (SetStatus task_id new_status)) as H. simpl in H.
    unfold after in H.
    destruct (mark_task task_id new_status st) as [r st'].
    destruct r as [a|e].
    - apply (H (Ok tt) inputs' st' Hknown eq_refl). lia.
    - apply (H (Raise e) inputs' st' Hknown eq_refl). lia. }
  destruct (String.eqb (strip line) "5").
  { destruct inputs1 as [|line1 inputs']; [now exists []|].
    simpl in Hlen.
    destruct (interactive_filter (strip line1)) as [filter_by|];
      [|apply Hskip; lia].
    pose proof (list_tasks_keeps_store filter_by st) as Hkeep.
    unfold after in Hkeep.
    destruct (list_tasks filter_by st) as [r st']. simpl in Hkeep.
    subst st'. destruct r as [a|e]; [apply Hskip; lia|now exists []]. }
  apply Hskip. lia.
Qed.

End InteractiveSession.

(** X19: whatever is typed, a session of the interactive mode leaves the
    file that some sequence of [add_task], [update_task], [delete_task]
    and [mark_task] calls leaves, every status of which is ["todo"],
    ["in_progress"] or ["done"]; so a session that starts on a missing
    or an empty file leaves a collection with pairwise distinct integer
    ids. *)
Theorem interactive_session_is_a_sequence_of_operations
    (strip : string -> string) (py_int : string -> option Z)
    (inputs : list string) (st : store) :
  exists ops,
    snd (interactive_mode strip py_int inputs st) = run ops st /\
    Forall known_status ops /\
    (st = None \/ st = saved [] ->
     exists tasks zs,
       outcome load_tasks (snd (interactive_mode strip py_int inputs st))
         = Ok tasks /\
       map Task.id tasks = map VInt zs /\ NoDup zs).
Proof.
  destruct (interactive_mode_is_run strip py_int (length inputs) inputs st
              (le_n _)) as (ops & Hrun & Hknown).
  exists ops. split; [exact Hrun|]. split; [exact Hknown|].
  intros Hinit. rewrite Hrun.
  destruct (distinct_ids_initial _ Hinit) as [_ Hdistinct].
  destruct (run_distinct_ids ops _ Hdistinct)
    as (zs & (tasks & Hload & Hids) & Hnodup).
  now exists tasks, zs.
Qed.

Lemma interactive_session_is_a_sequence_of_operations_witness :
  exists tasks zs,
    outcome load_tasks
      (snd (interactive_mode (fun s => s)
              (fun s => if String.eqb s "1" then Some 1 else None)
              ["1"; "Buy milk"; ""; "4"; "1"; "3"; "9"; "6"] None))
    = Ok tasks /\
    map Task.id tasks = map VInt zs /\ NoDup zs.
Proof.
  destruct (interactive_session_is_a_sequence_of_operations
              (fun s => s)
              (fun s => if String.eqb s "1" then Some 1 else None)
              ["1"; "Buy milk"; ""; "4"; "1"; "3"; "9"; "6"] None)
    as (ops & _ & _ & H).
  exact (H (or_introl eq_refl)).
Defined.

(** ** Calls that cannot fail *)

Lemma step_on_dumpable (o : op) (st : store) :
  encodable_op o = true ->
  (exists zs, holds_dumpable st zs) ->
  returns o st /\ exists zs', holds_dumpable (step o st) zs'.
Proof.
  intros Ho (zs & Hzs).
  pose proof Hzs as (tasks & Hload & Hids & Hdump).
  destruct o as [ti de|i ti de|i|i s]; simpl in *; unfold outcome, after.
  - apply andb_true_iff in Ho as [Hti Hde].
    destruct (add_task_on_dumpable _ _ ti de Hzs Hti Hde)
      as (tasks0 & _ & _ & Hrun & Hnext).
    rewrite Hrun. simpl. split; eauto.
  - apply andb_true_iff in Ho as [Hti Hde].
    pose proof (dumpable_change_first (retitled ti de) i tasks
                  (fun t => encodable_retitled ti de t Hti Hde) Hdump)
      as Hd.
    pose proof (change_first_ids (retitled ti de) i (fun _ => eq_refl) tasks)
      as Hkeep.
    rewrite (update_task_run _ _ i ti de Hload).
    destruct (change_first _ _ _) as [tasks' [|]]; simpl in Hd, Hkeep;
      [|split; eauto].
    rewrite saving_saved by exact Hd. simpl. split; [eauto|].
    exists zs, tasks'. split; [apply load_tasks_saved|].
    split; [congruence|exact Hd].
  - rewrite (delete_task_run _ _ i Hload). cbv zeta.
    destruct (Nat.eqb _ _); [split; eauto|].
    destruct (filter_int_ids (fun t => negb (has_id i t)) _ _ Hids)
      as (zs' & Hzs' & _).
    pose proof (dumpable_filter (fun t => negb (has_id i t)) _ Hdump) as Hd.
    rewrite saving_saved by exact Hd. simpl. split; [eauto|].
    exists zs', (List.filter (fun t => negb (has_id i t)) tasks).
    split; [apply load_tasks_saved|]. split; assumption.
  - pose proof (dumpable_change_first (restatused s) i tasks
                  (fun t => encodable_restatused s t Ho) Hdump) as Hd.
    pose proof (change_first_ids (restatused s) i (fun _ => eq_refl) tasks)
      as Hkeep.
    rewrite (mark_task_run _ _ i s Hload).
    destruct (change_first _ _ _) as [tasks' [|]]; simpl in Hd, Hkeep;
      [|split; eauto].
    rewrite saving_saved by exact Hd. simpl. split; [eauto|].
    exists zs, tasks'. split; [apply load_tasks_saved|].
    split; [congruence|exact Hd].
Qed.

Lemma run_on_dumpable (ops : list op) :
  forall st, forallb encodable_op ops = true ->
  (exists zs, holds_dumpable st zs) ->
  exists zs', holds_dumpable (run ops st) zs'.
Proof.
  unfold run. induction ops as [|o ops IH]; intros st Hops H; simpl;
    [exact H|].
  simpl in Hops. apply andb_true_iff in Hops as [Ho Hops].
  apply IH; [exact Hops|]. now apply step_on_dumpable.
Qed.

Lemma list_tasks_on_distinct_ids (filter_by : string) (st : store) :
  distinct_ids st -> exists l, list_tasks filter_by st = (Ok l, st).
Proof.
  intros (zs & (tasks & Hload & _) & _).
  rewrite (list_tasks_run _ _ _ Hload). eauto.
Qed.

Lemma list_tasks_on_dumpable (filter_by : string) (st : store) :
  (exists zs, holds_dumpable st zs) ->
  exists l, list_tasks filter_by st = (Ok l, st).
Proof.
  intros (zs & tasks & Hload & _).
  rewrite (list_tasks_run _ _ _ Hload). eauto.
Qed.

Lemma interactive_status_encodable (status_choice new_status : string) :
  interactive_status status_choice = Some new_status ->
  encodable new_status = true.
Proof.
  unfold interactive_status.
  repeat (destruct (String.eqb status_choice _);
          [now intros [= <-]|]).
  discriminate.
Qed.

Section SessionFromEmpty.

Variable strip : string -> string.
Variable py_int : string -> option Z.

Lemma interactive_mode_does_not_fail (n : nat) :
  forall inputs st, (length inputs <= n)%nat ->
  Forall (fun line => encodable (strip line) = true) inputs ->
  (exists zs, holds_dumpable st zs) ->
  fst (interactive_mode strip py_int inputs st) = Exit \/
  fst (interactive_mode strip py_int inputs st) = EndOfInput.
Proof.
  induction n as [|n IH]; intros inputs st Hlen Henc Hinv.
  { destruct inputs; [|simpl in Hlen; lia]. now right. }
  assert (Hop : forall (o : op) A (r : result A) rest st',
            encodable_op o = true ->
            (returns o st -> exists a, r = Ok a) -> st' = step o st ->
            (length rest <= n)%nat ->
            Forall (fun line => encodable (strip line) = true) rest ->
            let res := match r with
                       | Ok _ => interactive_mode strip py_int rest st'
                       | Raise e => (Failed e, st')
                       end in
            fst res = Exit \/ fst res = EndOfInput).
  { intros o A r rest st' Ho Hret -> Hrest Hall. cbv zeta.
    destruct (step_on_dumpable o st Ho Hinv) as [Hreturns Hnext].
    destruct (Hret Hreturns) as [a ->]. now apply IH. }
  destruct inputs as [|line inputs1]; [now right|].
  simpl in Hlen. simpl. apply Forall_cons_1 in Henc as [_ Henc].
  destruct (String.eqb (strip line) "6"); [now left|].
  destruct (String.eqb (strip line) "1").
  { destruct inputs1 as [|line1 [|line2 inputs']]; try (now right).
    simpl in Hlen.
    apply Forall_cons_1 in Henc as [H1 Henc].
    apply Forall_cons_1 in Henc as [H2 Henc].
    pose proof (Hop (Add (strip line1) (strip line2))) as H.
    simpl in H. unfold after, outcome in H.
    destruct (add_task (strip line1) (strip line2) st) as [r st'].
    apply (H _ r inputs' st'); try easy; [|lia].
    now rewrite H1, H2. }
  destruct (String.eqb (strip line) "2").
  { destruct inputs1 as [|line1 inputs2]; [now right|].
    simpl in Hlen. apply Forall_cons_1 in Henc as [_ Henc].
    destruct (py_int line1) as [task_id|]; [|apply IH; [lia|easy|easy]].
    destruct inputs2 as [|line2 [|line3 inputs']]; try (now right).
    simpl in Hlen.
    apply Forall_cons_1 in Henc as [H2 Henc].
    apply Forall_cons_1 in Henc as [H3 Henc].
    pose proof (Hop (Update task_id (strip line2) (strip line3))) as H.
    simpl in H. unfold after, outcome in H.
    destruct (update_task task_id (strip line2) (strip line3) st)
      as [r st'].
    apply (H _ r inputs' st'); try easy; [|lia].
    now rewrite H2, H3. }
  destruct (String.eqb (strip line) "3").
  { destruct inputs1 as [|line1 inputs']; [now right|].
    simpl in Hlen. apply Forall_cons_1 in Henc as [_ Henc].
    destruct (py_int line1) as [task_id|]; [|apply IH; [lia|easy|easy]].
    pose proof (Hop (Delete task_id)) as H.
    simpl in H. unfold after, outcome in H.
    destruct (delete_task task_id st) as [r st'].
    apply (H _ r inputs' st'); try easy. lia. }
  destruct (String.eqb (strip line) "4").
  { destruct inputs1 as [|line1 inputs2]; [now right|].
    simpl in Hlen. apply Forall_cons_1 in Henc as [_ Henc].
    destruct (py_int line1) as [task_id|]; [|apply IH; [lia|easy|easy]].
    destruct inputs2 as [|line2 inputs']; [now right|].
    simpl in Hlen. apply Forall_cons_1 in Henc as [_ Henc].
    destruct (interactive_status (strip line2)) as [new_status|] eqn:Es;
      [|apply IH; [lia|easy|easy]].
    pose proof (Hop (SetStatus task_id new_status)) as H.
    simpl in H. unfold after, outcome in H.
    destruct (mark_task task_id new_status st) as [r st'].
    apply (H _ r inputs' st'); try easy; [|lia].
    exact (interactive_status_encodable _ _ Es). }
  destruct (String.eqb (strip line) "5").
  { destruct inputs1 as [|line1 inputs']; [now right|].
    simpl in Hlen. apply Forall_cons_1 in Henc as [_ Henc].
    destruct (interactive_filter (strip line1)) as [filter_by|];
      [|apply IH; [lia|easy|easy]].
    destruct (list_tasks_on_dumpable filter_by st Hinv) as [l ->].
    apply IH; [lia|easy|easy]. }
  apply IH; [lia|easy|easy].
Qed.

End SessionFromEmpty.

(** X20: on a file that was missing or empty at the start and has only
    been changed by these operations, called with strings that can be
    encoded, no such call raises: [add_task], [update_task],
    [delete_task] and [mark_task] return; [list_tasks] returns whatever
    the strings of the calls before were; and a session of the
    interactive mode in which every line typed can be encoded ends by
    the choice 6 or by the end of its input, never by an exception of
    the store. *)
Theorem nothing_fails_from_an_empty_file
    (st0 : store) (Hinit : st0 = None \/ st0 = saved []) :
  (forall ops o,
     forallb encodable_op ops = true -> encodable_op o = true ->
     returns o (run ops st0)) /\
  (forall ops filter_by,
     exists l, outcome (list_tasks filter_by) (run ops st0) = Ok l) /\
  (forall strip py_int inputs,
     Forall (fun line => encodable (strip line) = true) inputs ->
     fst (interactive_mode strip py_int inputs st0) = Exit \/
     fst (interactive_mode strip py_int inputs st0) = EndOfInput).
Proof.
  destruct (distinct_ids_initial _ Hinit) as [Hdumpable Hdistinct].
  split; [|split].
  - intros ops o Hops Ho.
    apply (step_on_dumpable o _ Ho).
    apply run_on_dumpable; [exact Hops|now exists []].
  - intros ops f.
    destruct (list_tasks_on_distinct_ids f (run ops st0)) as [l Hl];
      [now apply run_distinct_ids|].
    exists l. unfold outcome. now rewrite Hl.
  - intros strip py_int inputs Henc.
    apply (interactive_mode_does_not_fail strip py_int (length inputs));
      [apply le_n|exact Henc|now exists []].
Qed.

Lemma nothing_fails_from_an_empty_file_witness :
  returns (Add "c" "")
    (run [Add "a" ""; Add "b" ""; Delete 2; SetStatus 1 "done"] None).
Proof.
  exact (proj1 (nothing_fails_from_an_empty_file None (or_introl eq_refl))
           [Add "a" ""; Add "b" ""; Delete 2; SetStatus 1 "done"]
           (Add "c" "") eq_refl eq_refl).
Defined.
